(** * The token client of [src/client/token.js]: amount codec, account decoding
    and instruction payloads.

    The JavaScript of [token.js] is embedded function by function.  The
    libraries it calls (Node's [Buffer], [bn.js], [buffer-layout] and the
    [PublicKey] class of [@solana/web3.js]) are embedded as far as [token.js]
    uses them.  A thrown exception is an explicit [Throw] result. *)

From Stdlib Require Import ZArith NArith String Ascii Bool Lia List DecimalString.
From Stdlib Require Init.Byte Strings.Byte.
From coqutil Require Import Byte Word.LittleEndianList.
From Equations Require Import Equations.
Import ListNotations.

Local Open Scope string_scope.
Local Open Scope list_scope.
Local Open Scope Z_scope.

(** ** JavaScript results: a value or a thrown exception *)

Inductive exn : Type :=
| Error (message : string)
| AssertionError (message : string)
| RangeError
| TypeError.

Inductive result (A : Type) : Type :=
| Ok (a : A)
| Throw (e : exn).
Arguments Ok {A} a.
Arguments Throw {A} e.

Definition bind {A B : Type} (m : result A) (k : A -> result B) : result B :=
  match m with
  | Ok a => k a
  | Throw e => Throw e
  end.

Notation "x <- m ;; k" := (bind m (fun x => k))
  (at level 61, m at next level, right associativity).
Notation "' p <- m ;; k" := (bind m (fun x => let p := x in k))
  (at level 61, p pattern, m at next level, right associativity).

(** [assert(cond, message)] of Node's [assert] module. *)
Definition assert (cond : bool) (message : string) : result unit :=
  if cond then Ok tt else Throw (AssertionError message).

(** ** Node's Buffer, as far as it is used *)

Module Buffer.

Definition t : Type := list byte.

(** [Buffer.alloc(size)]: [size] zero bytes. *)
Definition alloc (size : nat) : t := repeat Byte.x00 size.

(** [Buffer.from(array)] of an array of byte values, and of a buffer: a copy. *)
Definition from (a : list byte) : t := a.

(** [buf.slice(start, end)]: both ends are clamped to the buffer. *)
Definition slice (b : t) (start end_ : nat) : t :=
  firstn (end_ - start) (skipn start b).

(** [source.copy(target)]: the bytes of [source] overwrite the start of
    [target]; what does not fit is dropped. *)
Definition copy (source target : t) : t :=
  firstn (length target) (source ++ skipn (length source) target).

(** The bytes of [src] written at [offset]; the caller has checked that
    they fit. *)
Definition write (b : t) (src : list byte) (offset : nat) : t :=
  firstn (length b) (firstn offset b ++ src ++ skipn (offset + length src) b).

Definition readUInt8 (b : t) (offset : nat) : result Z :=
  match nth_error b offset with
  | Some x => Ok (byte.unsigned x)
  | None => Throw RangeError
  end.

Definition readUInt32LE (b : t) (offset : nat) : result Z :=
  match skipn offset b with
  | first :: b1 :: b2 :: last :: _ =>
      Ok (byte.unsigned first + byte.unsigned b1 * 2 ^ 8
          + byte.unsigned b2 * 2 ^ 16 + byte.unsigned last * 2 ^ 24)
  | _ => Throw RangeError
  end.

Definition writeUInt8 (b : t) (value : Z) (offset : nat) : result t :=
  if (0 <=? value) && (value <=? 255) && (offset <? length b)%nat
  then Ok (write b [byte.of_Z value] offset)
  else Throw RangeError.

Definition writeUInt32LE (b : t) (value : Z) (offset : nat) : result t :=
  if (0 <=? value) && (value <=? 4294967295) && (offset + 4 <=? length b)%nat
  then Ok (write b [byte.of_Z value; byte.of_Z (Z.shiftr value 8);
                    byte.of_Z (Z.shiftr value 16); byte.of_Z (Z.shiftr value 24)]
                 offset)
  else Throw RangeError.

End Buffer.

(** ** bn.js, as far as it is used

    A [BN] is an arbitrary-precision integer; it is embedded as its value. *)

Module BN.

Definition t : Type := Z.

(** [bitLength()]: 0 for zero, otherwise the position of the highest set
    bit of the magnitude, counted from 1. *)
Definition bitLength (v : t) : Z :=
  if v =? 0 then 0 else Z.log2 (Z.abs v) + 1.

(** [byteLength()]: [Math.ceil(this.bitLength() / 8)]. *)
Definition byteLength (v : t) : nat :=
  Z.to_nat ((bitLength v + 7) / 8).

(** The loop of [toArrayLike]: [b = q.andln(0xff); q.iushrn(8)], the least
    significant byte first. *)
Fixpoint toArray_loop (n : nat) (q : Z) : list byte :=
  match n with
  | O => []
  | S n' => byte.of_Z (Z.land q 255) :: toArray_loop n' (Z.shiftr q 8)
  end.

(** [toArray()] without arguments: big-endian bytes of the magnitude, as
    many as [byteLength()] says and at least one. *)
Definition toArray (v : t) : list byte :=
  let reqLength := Nat.max 1 (byteLength v) in
  rev (toArray_loop reqLength (Z.abs v)).

(** [parseHex4Bits]: the value of one hex digit; the [assert] of [bn.js]
    throws a plain [Error]. *)
Definition parseHex4Bits (c : ascii) : result Z :=
  let c := Z.of_N (N_of_ascii c) in
  if (48 <=? c) && (c <=? 57) then Ok (c - 48)
  else if (65 <=? c) && (c <=? 70) then Ok (c - 55)
  else if (97 <=? c) && (c <=? 102) then Ok (c - 87)
  else Throw (Error "Invalid character").

Fixpoint parseHex (s : string) (acc : Z) : result Z :=
  match s with
  | EmptyString => Ok acc
  | String c s' => d <- parseHex4Bits c ;; parseHex s' (acc * 16 + d)
  end.

(** [new BN(string, 16)]: an optional leading minus, then hex digits. *)
Definition of_hex (s : string) : result t :=
  match s with
  | String "-" s' => r <- parseHex s' 0 ;; Ok (- r)
  | _ => parseHex s 0
  end.

(** [new BN(buffer)]: the bytes read as a big-endian magnitude. *)
Definition of_bytes (b : list byte) : t :=
  fold_left (fun acc x => acc * 256 + byte.unsigned x) b 0.

(** [new BN()]: zero. *)
Definition zero : t := 0.

Definition eq (a b : t) : bool := a =? b.

(** [toBuffer()] of [BN.prototype], without arguments:
    [toArrayLike(Buffer)], the bytes of [toArray()] in a buffer, big-endian
    and not padded. *)
Definition toBuffer (v : t) : Buffer.t := Buffer.from (toArray v).

End BN.

(** ** Strings of JavaScript, as far as they are used *)

Definition hexdigit (n : Z) : ascii :=
  match String.get (Z.to_nat n) "0123456789abcdef" with
  | Some c => c
  | None => "0"%char
  end.

(** [i.toString(16)] for a byte value [i]. *)
Definition Number_toString16 (i : byte) : string :=
  let n := byte.unsigned i in
  if n <? 16 then String (hexdigit n) EmptyString
  else String (hexdigit (n / 16)) (String (hexdigit (n mod 16)) EmptyString).

(** [s.slice(-n)]: the last [n] characters. *)
Definition String_slice_last (n : nat) (s : string) : string :=
  substring (String.length s - n) n s.

(** [array.join('')]. *)
Definition Array_join (l : list string) : string := String.concat "" l.

(** The decimal text of a length, as a template literal prints it. *)
Definition Number_toString10 (n : nat) : string :=
  NilEmpty.string_of_uint (Nat.to_uint n).

(** ** TokenAmount (token.js, lines 23-53) *)

Module TokenAmount.

(** [class TokenAmount extends BN]: the value that an object of the class
    holds. *)
Definition t : Type := BN.t.

(** What is given where the source expects [number | TokenAmount]: a number
    holding an integer; an object of class [TokenAmount], made by
    [new TokenAmount(...)]; or a plain [BN], which is what [fromBuffer]
    makes on line 45 with [new BN] and returns under the type
    [TokenAmount]. *)
Inductive arg : Type :=
| OfNumber (n : Z)
| OfAmount (a : t)
| OfBN (a : BN.t).

(** An object that extends [BN], by its class: the class decides which
    [toBuffer] a call runs. *)
Inductive instance : Type :=
| IsTokenAmount (a : t)
| IsBN (a : BN.t).

(** [new TokenAmount(amount)]: the constructor of [BN] takes a number only
    below [2^53] in magnitude, and returns a [BN] it is given as it is, so
    that the object made is the one given, of the class it had. *)
Definition new (amount : arg) : result instance :=
  match amount with
  | OfAmount a => Ok (IsTokenAmount a)
  | OfBN a => Ok (IsBN a)
  | OfNumber n =>
      if Z.abs n <? 2 ^ 53 then Ok (IsTokenAmount n)
      else Throw (Error "Assertion failed")
  end.

(** [toBuffer()] of the class (lines 27-38), on the value that the object
    holds. *)
Definition toBuffer (this : t) : result Buffer.t :=
  let a := rev (BN.toArray this) in
  let b := Buffer.from a in
  if (length b =? 8)%nat then Ok b
  else
    _ <- assert (length b <? 8)%nat "TokenAmount too large" ;;
    let zeroPad := Buffer.alloc 8 in
    let zeroPad := Buffer.copy b zeroPad in
    Ok zeroPad.

(** [fromBuffer(buffer)] (lines 43-52): the value of the [BN] it makes. *)
Definition fromBuffer (buffer : Buffer.t) : result t :=
  _ <- assert (length buffer =? 8)%nat
         ("Invalid buffer length: " ++ Number_toString10 (length buffer))%string ;;
  BN.of_hex
    (Array_join
       (map (fun i => String_slice_last 2 ("00" ++ Number_toString16 i)%string)
            (rev buffer))).


(** [o.toBuffer()]: the method of the class of [o]. *)
Definition call_toBuffer (o : instance) : result Buffer.t :=
  match o with
  | IsTokenAmount a => toBuffer a
  | IsBN a => Ok (BN.toBuffer a)
  end.

End TokenAmount.

(** ** PublicKey of @solana/web3.js, as far as it is used *)

Module PublicKey.

Record t : Type := { _bn : BN.t }.

(** [new PublicKey(buffer)]. *)
Definition new (value : Buffer.t) : result t :=
  let bn := BN.of_bytes value in
  if (32 <? BN.byteLength bn)%nat then Throw (Error "Invalid public key input")
  else Ok {| _bn := bn |}.

Definition equals (this publicKey : t) : bool :=
  BN.eq (_bn this) (_bn publicKey).

End PublicKey.

(** ** JavaScript values and objects

    The objects [buffer-layout] decodes into and encodes from hold numbers
    and buffers; [token.js] then overwrites fields with keys, amounts and
    [null].  A missing property ([undefined]) is [None].  An amount in a
    field is held by its value: the fields are read, and no method of the
    amount is called on them. *)

Inductive value : Type :=
| Num (n : Z)
| Buf (b : Buffer.t)
| Key (k : PublicKey.t)
| Amount (a : TokenAmount.t)
| Null.

Definition object : Type := list (string * value).

Fixpoint get_prop (o : object) (p : string) : option value :=
  match o with
  | [] => None
  | (q, v) :: o' => if String.eqb p q then Some v else get_prop o' p
  end.

Fixpoint set_prop (o : object) (p : string) (v : value) : object :=
  match o with
  | [] => [(p, v)]
  | (q, w) :: o' => if String.eqb p q then (q, v) :: o' else (q, w) :: set_prop o' p v
  end.

(** [x === n] for a number literal [n]. *)
Definition strict_eq_num (x : option value) (n : Z) : bool :=
  match x with
  | Some (Num m) => m =? n
  | _ => false
  end.

(** A property handed to code that needs a buffer. *)
Definition as_buffer (x : option value) : result Buffer.t :=
  match x with
  | Some (Buf b) => Ok b
  | _ => Throw TypeError
  end.

Definition as_key (x : option value) : result PublicKey.t :=
  match x with
  | Some (Key k) => Ok k
  | _ => Throw TypeError
  end.

(** ** buffer-layout, as far as it is used *)

Module BufferLayout.

Inductive Layout : Type :=
| u8 (property : string)
| nu64 (property : string)
| blob (length : nat) (property : string).

Definition property (l : Layout) : string :=
  match l with
  | u8 p | nu64 p | blob _ p => p
  end.

Definition span (l : Layout) : nat :=
  match l with
  | u8 _ => 1
  | nu64 _ => 8
  | blob n _ => n
  end.

(** The value of a JavaScript number that holds the sum of two
    non-negative integers below [2^64]: the sum rounded to 53 significant
    bits, ties to even. *)
Definition round_double (x : Z) : Z :=
  let e := Z.log2 x - 52 in
  if e <=? 0 then x
  else
    let q := Z.shiftr x e in
    let r := Z.land x (Z.ones e) in
    let half := 2 ^ (e - 1) in
    if (r <? half) || ((r =? half) && Z.even q) then Z.shiftl q e
    else Z.shiftl (q + 1) e.

(** [roundedInt64(hi32, lo32) = hi32 * V2E32 + lo32]. *)
Definition roundedInt64 (hi32 lo32 : Z) : Z :=
  round_double (hi32 * 4294967296 + lo32).

(** [divmodInt64(src)]: [hi32 = Math.floor(src / V2E32)],
    [lo32 = src - hi32 * V2E32]. *)
Definition divmodInt64 (src : Z) : Z * Z :=
  let hi32 := src / 4294967296 in
  let lo32 := src - hi32 * 4294967296 in
  (hi32, lo32).

Definition decode (l : Layout) (b : Buffer.t) (offset : nat) : result value :=
  match l with
  | u8 _ => n <- Buffer.readUInt8 b offset ;; Ok (Num n)
  | nu64 _ =>
      lo32 <- Buffer.readUInt32LE b offset ;;
      hi32 <- Buffer.readUInt32LE b (offset + 4) ;;
      Ok (Num (roundedInt64 hi32 lo32))
  | blob n _ => Ok (Buf (Buffer.slice b offset (offset + n)))
  end.

(** [encode] returns the buffer as written and the number of bytes
    written. *)
Definition encode (l : Layout) (src : value) (b : Buffer.t) (offset : nat)
  : result (Buffer.t * nat) :=
  match l, src with
  | u8 _, Num n => b' <- Buffer.writeUInt8 b n offset ;; Ok (b', 1%nat)
  | nu64 _, Num n =>
      let '(hi32, lo32) := divmodInt64 n in
      b1 <- Buffer.writeUInt32LE b lo32 offset ;;
      b2 <- Buffer.writeUInt32LE b1 hi32 (offset + 4) ;;
      Ok (b2, 8%nat)
  | blob n _, Buf src =>
      if negb (n =? length src)%nat then Throw TypeError
      else if (length b <? offset + n)%nat then Throw RangeError
      else Ok (Buffer.write b src offset, n)
  | _, _ => Throw TypeError
  end.

(** [BufferLayout.struct(fields)]. *)
Definition Structure : Type := list Layout.

Definition struct_span (fields : Structure) : nat :=
  fold_left (fun acc fd => (acc + span fd)%nat) fields 0%nat.

Fixpoint struct_decode_loop (fields : Structure) (b : Buffer.t) (offset : nat)
    (dest : object) : result object :=
  match fields with
  | [] => Ok dest
  | fd :: fields' =>
      v <- decode fd b offset ;;
      struct_decode_loop fields' b (offset + span fd) (set_prop dest (property fd) v)
  end.

Definition struct_decode (fields : Structure) (b : Buffer.t) : result object :=
  struct_decode_loop fields b 0 [].

Fixpoint struct_encode_loop (fields : Structure) (src : object) (b : Buffer.t)
    (offset lastOffset lastWrote : nat) : result (Buffer.t * nat * nat) :=
  match fields with
  | [] => Ok (b, lastOffset, lastWrote)
  | fd :: fields' =>
      match get_prop src (property fd) with
      | Some fv =>
          '(b', wrote) <- encode fd fv b offset ;;
          struct_encode_loop fields' src b' (offset + span fd) offset wrote
      | None =>
          struct_encode_loop fields' src b (offset + span fd) offset (span fd)
      end
  end.

Definition struct_encode (fields : Structure) (src : object) (b : Buffer.t)
  : result (Buffer.t * nat) :=
  '(b', lastOffset, lastWrote) <- struct_encode_loop fields src b 0 0 0 ;;
  Ok (b', (lastOffset + lastWrote - 0)%nat).

End BufferLayout.

(** ** layout.js *)

Module Layout.

(** Modelled from the spec: [src/client/layout.js] is not among the
    sources.  The spec gives every amount field as an "8-byte-amount" and
    every key field as a "32-byte-key"; [token.js] hands the decoded
    fields to [TokenAmount.fromBuffer] and [new PublicKey] and encodes
    them from [toBuffer()], so both are raw byte fields.  An amount field
    is 8 raw bytes. *)
Definition uint64 (property : string) : BufferLayout.Layout :=
  BufferLayout.blob 8 property.

(** Modelled from the spec: [src/client/layout.js] is not among the
    sources.  A key field is a "32-byte-key": 32 raw bytes. *)
Definition publicKey (property : string) : BufferLayout.Layout :=
  BufferLayout.blob 32 property.

End Layout.

(** ** token.js: layouts of the two account kinds (lines 73-77, 117-125) *)

Definition TokenInfoLayout : BufferLayout.Structure :=
  [ BufferLayout.u8 "state";
    Layout.uint64 "supply";
    BufferLayout.u8 "decimals" ].

Definition TokenAccountInfoLayout : BufferLayout.Structure :=
  [ BufferLayout.u8 "state";
    Layout.publicKey "token";
    Layout.publicKey "owner";
    Layout.uint64 "amount";
    BufferLayout.nu64 "sourceOption";
    Layout.publicKey "source";
    Layout.uint64 "originalAmount" ].

(** ** The records of @solana/web3.js that token.js reads and builds *)

Module AccountInfo.
Record t : Type :=
  { owner : PublicKey.t; lamports : Z; data : list byte; executable : bool }.
End AccountInfo.

Module Connection.
(** The RPC endpoint: what [getAccountInfo] answers for a key. *)
Record t : Type :=
  { getAccountInfo : PublicKey.t -> result AccountInfo.t }.
End Connection.

Module Account.
Record t : Type := { publicKey : PublicKey.t }.
End Account.

Module AccountMeta.
Record t : Type :=
  { pubkey : PublicKey.t; isSigner : bool; isWritable : bool }.
End AccountMeta.

Module TransactionInstruction.
Record t : Type :=
  { keys : list AccountMeta.t; programId : PublicKey.t; data : Buffer.t }.
End TransactionInstruction.

Module Transaction.
(** A transaction is the list of its instructions;
    [new Transaction().add(i)] is [add new i]. *)
Definition t : Type := list TransactionInstruction.t.
Definition new : t := [].
Definition add (this : t) (i : TransactionInstruction.t) : t := this ++ [i].
End Transaction.

Module SystemProgram.
(** The argument of [SystemProgram.createAccount]. *)
Record CreateAccountParams : Type :=
  { fromPubkey : PublicKey.t; newAccountPubkey : PublicKey.t; lamports : Z;
    space : nat; programId : PublicKey.t }.
End SystemProgram.

(** ** token.js: class Token *)

Module Token.

Record t : Type :=
  { connection : Connection.t; token : PublicKey.t; programId : PublicKey.t }.

(** Lines 208-225 of [createNewToken]: the payload of the NewToken
    instruction.  Line 216 calls [supply.toBuffer()] without making an
    object first; [supply] is an object of class [TokenAmount], as the
    signature declares it. *)
Definition createNewToken_data (supply : TokenAmount.t) (decimals : Z)
  : result Buffer.t :=
  let dataLayout :=
    [ BufferLayout.u8 "instruction";
      Layout.uint64 "supply";
      BufferLayout.nu64 "decimals" ] in
  let data := Buffer.alloc 1024 in
  supply_buffer <- TokenAmount.toBuffer supply ;;
  '(data, encodeLength) <-
    BufferLayout.struct_encode dataLayout
      [ ("instruction", Num 0); (* NewToken instruction *)
        ("supply", Buf supply_buffer);
        ("decimals", Num decimals) ]
      data ;;
  let data := Buffer.slice data 0 encodeLength in
  Ok data.

(** Lines 283-291 of [newAccount]: the payload of the NewTokenAccount
    instruction. *)
Definition newAccount_data : result Buffer.t :=
  let dataLayout := [ BufferLayout.u8 "instruction" ] in
  let data := Buffer.alloc (BufferLayout.struct_span dataLayout) in
  '(data, _) <-
    BufferLayout.struct_encode dataLayout
      [ ("instruction", Num 1) (* NewTokenAccount instruction *) ]
      data ;;
  Ok data.

(** Lines 341-357. *)
Definition tokenInfo (this : t) : result object :=
  accountInfo <- Connection.getAccountInfo (connection this) (token this) ;;
  if negb (PublicKey.equals (AccountInfo.owner accountInfo) (programId this))
  then Throw (Error "Invalid token owner")
  else
    let data := Buffer.from (AccountInfo.data accountInfo) in
    tokenInfo <- BufferLayout.struct_decode TokenInfoLayout data ;;
    if negb (strict_eq_num (get_prop tokenInfo "state") 1)
    then Throw (Error "Invalid token account data")
    else
      supply_buffer <- as_buffer (get_prop tokenInfo "supply") ;;
      supply <- TokenAmount.fromBuffer supply_buffer ;;
      let tokenInfo := set_prop tokenInfo "supply" (Amount supply) in
      Ok tokenInfo.

(** Lines 364-397. *)
Definition accountInfo (this : t) (account : PublicKey.t) : result object :=
  accountInfo <- Connection.getAccountInfo (connection this) account ;;
  if negb (PublicKey.equals (AccountInfo.owner accountInfo) (programId this))
  then Throw (Error "Invalid token account owner")
  else
    let data := Buffer.from (AccountInfo.data accountInfo) in
    tokenAccountInfo <- BufferLayout.struct_decode TokenAccountInfoLayout data ;;
    if negb (strict_eq_num (get_prop tokenAccountInfo "state") 2)
    then Throw (Error "Invalid token account data")
    else
      b <- as_buffer (get_prop tokenAccountInfo "token") ;;
      k <- PublicKey.new b ;;
      let tokenAccountInfo := set_prop tokenAccountInfo "token" (Key k) in
      b <- as_buffer (get_prop tokenAccountInfo "owner") ;;
      k <- PublicKey.new b ;;
      let tokenAccountInfo := set_prop tokenAccountInfo "owner" (Key k) in
      b <- as_buffer (get_prop tokenAccountInfo "amount") ;;
      a <- TokenAmount.fromBuffer b ;;
      let tokenAccountInfo := set_prop tokenAccountInfo "amount" (Amount a) in
      tokenAccountInfo <-
        (if strict_eq_num (get_prop tokenAccountInfo "sourceOption") 0
         then
           let tokenAccountInfo := set_prop tokenAccountInfo "source" Null in
           Ok (set_prop tokenAccountInfo "originalAmount" (Amount BN.zero))
         else
           b <- as_buffer (get_prop tokenAccountInfo "source") ;;
           k <- PublicKey.new b ;;
           let tokenAccountInfo := set_prop tokenAccountInfo "source" (Key k) in
           b <- as_buffer (get_prop tokenAccountInfo "originalAmount") ;;
           a <- TokenAmount.fromBuffer b ;;
           Ok (set_prop tokenAccountInfo "originalAmount" (Amount a))) ;;
      tk <- as_key (get_prop tokenAccountInfo "token") ;;
      if negb (PublicKey.equals tk (token this))
      then Throw (Error "Invalid token account token")
      else Ok tokenAccountInfo.

(** Lines 497-539. *)
Definition transferInstruction (this : t) (owner source destination : PublicKey.t)
    (amount : TokenAmount.arg) : result TransactionInstruction.t :=
  accountInfo <- accountInfo this source ;;
  accountInfo_owner <- as_key (get_prop accountInfo "owner") ;;
  if negb (PublicKey.equals owner accountInfo_owner)
  then Throw (Error "Account owner mismatch")
  else
    let dataLayout := [ BufferLayout.u8 "instruction"; Layout.uint64 "amount" ] in
    let data := Buffer.alloc (BufferLayout.struct_span dataLayout) in
    amount_object <- TokenAmount.new amount ;;
    amount_buffer <- TokenAmount.call_toBuffer amount_object ;;
    '(data, _) <-
      BufferLayout.struct_encode dataLayout
        [ ("instruction", Num 2); (* Transfer instruction *)
          ("amount", Buf amount_buffer) ]
        data ;;
    let keys :=
      [ {| AccountMeta.pubkey := owner;
           AccountMeta.isSigner := true; AccountMeta.isWritable := false |};
        {| AccountMeta.pubkey := source;
           AccountMeta.isSigner := false; AccountMeta.isWritable := true |};
        {| AccountMeta.pubkey := destination;
           AccountMeta.isSigner := false; AccountMeta.isWritable := true |} ] in
    let keys :=
      match get_prop accountInfo "source" with
      | Some (Key accountInfo_source) =>
          keys ++ [ {| AccountMeta.pubkey := accountInfo_source;
                       AccountMeta.isSigner := false;
                       AccountMeta.isWritable := true |} ]
      | _ => keys
      end in
    Ok {| TransactionInstruction.keys := keys;
          TransactionInstruction.programId := programId this;
          TransactionInstruction.data := data |}.

(** Lines 549-578. *)
Definition approveInstruction (this : t) (owner account delegate : PublicKey.t)
    (amount : TokenAmount.arg) : result TransactionInstruction.t :=
  let dataLayout := [ BufferLayout.u8 "instruction"; Layout.uint64 "amount" ] in
  let data := Buffer.alloc (BufferLayout.struct_span dataLayout) in
  amount_object <- TokenAmount.new amount ;;
  amount_buffer <- TokenAmount.call_toBuffer amount_object ;;
  '(data, _) <-
    BufferLayout.struct_encode dataLayout
      [ ("instruction", Num 3); (* Approve instruction *)
        ("amount", Buf amount_buffer) ]
      data ;;
  Ok {| TransactionInstruction.keys :=
          [ {| AccountMeta.pubkey := owner;
               AccountMeta.isSigner := true; AccountMeta.isWritable := false |};
            {| AccountMeta.pubkey := account;
               AccountMeta.isSigner := false; AccountMeta.isWritable := true |};
            {| AccountMeta.pubkey := delegate;
               AccountMeta.isSigner := false; AccountMeta.isWritable := true |} ];
        TransactionInstruction.programId := programId this;
        TransactionInstruction.data := data |}.

(** Lines 587-593. *)
Definition revokeInstruction (this : t) (owner account delegate : PublicKey.t)
  : result TransactionInstruction.t :=
  approveInstruction this owner account delegate (TokenAmount.OfNumber 0).

(** Lines 602-626. *)
Definition setOwnerInstruction (this : t) (owner account newOwner : PublicKey.t)
  : result TransactionInstruction.t :=
  let dataLayout := [ BufferLayout.u8 "instruction" ] in
  let data := Buffer.alloc (BufferLayout.struct_span dataLayout) in
  '(data, _) <-
    BufferLayout.struct_encode dataLayout
      [ ("instruction", Num 4) (* SetOwner instruction *) ]
      data ;;
  Ok {| TransactionInstruction.keys :=
          [ {| AccountMeta.pubkey := owner;
               AccountMeta.isSigner := true; AccountMeta.isWritable := false |};
            {| AccountMeta.pubkey := account;
               AccountMeta.isSigner := false; AccountMeta.isWritable := true |};
            {| AccountMeta.pubkey := newOwner;
               AccountMeta.isSigner := false; AccountMeta.isWritable := true |} ];
        TransactionInstruction.programId := programId this;
        TransactionInstruction.data := data |}.

(** The methods that send a transaction.  [sendAndConfirmTransaction] of
    [util/send-and-confirm-transaction.js] is taken as given: what it
    answers for a title, a connection, a transaction and its signers. *)
Section Sending.

Variable Signature : Type.
Variable sendAndConfirmTransaction :
  string -> Connection.t -> Transaction.t -> list Account.t -> result Signature.

(** Lines 436-450. *)
Definition approve (this : t) (owner : Account.t) (account delegate : PublicKey.t)
    (amount : TokenAmount.arg) : result unit :=
  i <- approveInstruction this (Account.publicKey owner) account delegate amount ;;
  _ <- sendAndConfirmTransaction "approve" (connection this)
         (Transaction.add Transaction.new i) [owner] ;;
  Ok tt.

(** Lines 459-465. *)
Definition revoke (this : t) (owner : Account.t) (account delegate : PublicKey.t)
  : result unit :=
  approve this owner account delegate (TokenAmount.OfNumber 0).

(** Lines 407-426. *)
Definition transfer (this : t) (owner : Account.t) (source destination : PublicKey.t)
    (amount : TokenAmount.arg) : result Signature :=
  i <- transferInstruction this (Account.publicKey owner) source destination amount ;;
  sendAndConfirmTransaction "transfer" (connection this)
    (Transaction.add Transaction.new i) [owner].

(** Lines 474-487; the title is spelt as in the source. *)
Definition setOwner (this : t) (owner : Account.t) (account newOwner : PublicKey.t)
  : result unit :=
  i <- setOwnerInstruction this (Account.publicKey owner) account newOwner ;;
  _ <- sendAndConfirmTransaction "setOwneer" (connection this)
         (Transaction.add Transaction.new i) [owner] ;;
  Ok tt.

(** [connection.getMinimumBalanceForRentExemption(dataLength)] and
    [SystemProgram.createAccount(params)] of [@solana/web3.js] are taken as
    given. *)
Variable getMinimumBalanceForRentExemption : Connection.t -> nat -> result Z.
Variable createAccount : SystemProgram.CreateAccountParams -> Transaction.t.


(** Lines 177-183. *)
Definition getMinBalanceRentForExemptTokenAccount (connection : Connection.t)
  : result Z :=
  getMinimumBalanceForRentExemption connection
    (BufferLayout.struct_span TokenAccountInfoLayout).

(** Lines 276-336.  [tokenAccount] is the account that [new Account()]
    makes. *)
Definition newAccount (this : t) (owner : Account.t) (source : option PublicKey.t)
    (tokenAccount : Account.t) : result PublicKey.t :=
  data <- newAccount_data ;;
  balanceNeeded <- getMinBalanceRentForExemptTokenAccount (connection this) ;;
  (* Allocate memory for the token *)
  let transaction :=
    createAccount
      {| SystemProgram.fromPubkey := Account.publicKey owner;
         SystemProgram.newAccountPubkey := Account.publicKey tokenAccount;
         SystemProgram.lamports := balanceNeeded;
         SystemProgram.space := BufferLayout.struct_span TokenAccountInfoLayout;
         SystemProgram.programId := programId this |} in
  _ <- sendAndConfirmTransaction "createAccount" (connection this) transaction
         [owner; tokenAccount] ;;
  (* Initialize the token account *)
  let keys :=
    [ {| AccountMeta.pubkey := Account.publicKey tokenAccount;
         AccountMeta.isSigner := true; AccountMeta.isWritable := true |};
      {| AccountMeta.pubkey := Account.publicKey owner;
         AccountMeta.isSigner := false; AccountMeta.isWritable := false |};
      {| AccountMeta.pubkey := token this;
         AccountMeta.isSigner := false; AccountMeta.isWritable := false |} ] in
  let keys :=
    match source with
    | Some source =>
        keys ++ [ {| AccountMeta.pubkey := source;
                     AccountMeta.isSigner := false;
                     AccountMeta.isWritable := false |} ]
    | None => keys
    end in
  let transaction :=
    Transaction.add Transaction.new
      {| TransactionInstruction.keys := keys;
         TransactionInstruction.programId := programId this;
         TransactionInstruction.data := data |} in
  _ <- sendAndConfirmTransaction "init tokenAccount" (connection this) transaction
         [owner; tokenAccount] ;;
  Ok (Account.publicKey tokenAccount).


End Sending.

End Token.

(** ** The confirmation loop of util/send-and-confirm-transaction.js *)

Module Confirmation.

(** Modelled from the spec: [src/client/util/send-and-confirm-transaction.js]
    is not among the sources.  What [getSignatureStatus] answers:
    "null | {Ok: null} | {Err: <reason>}", null meaning "not yet
    observed". *)
Inductive SignatureStatus : Type :=
| StatusNull
| StatusOk
| StatusErr (reason : string).

(** Modelled from the spec: the two failures the spec tells apart, a send
    given up ("Failed(transport)") and "an explicit on-chain error
    result". *)
Inductive FailureReason : Type :=
| TransportError
| OnChainError (reason : string).

(** Modelled from the spec: the three final states of the state machine. *)
Inductive Outcome : Type :=
| Confirmed (signature : string)
| Failed (reason : FailureReason)
| TimedOut.

(** The deadline check: is the elapsed time still within the budget? *)
Definition within (elapsed budget : N)
  : {(elapsed <= budget)%N} + {(budget < elapsed)%N}.
Proof.
  destruct (elapsed <=? budget)%N eqn:H.
  - left. apply N.leb_le. exact H.
  - right. apply N.leb_gt. exact H.
Defined.

Section Loop.

(** The transport: what the [attempt]-th send answers (a signature, or
    nothing on a transport error), and what a status query for a
    signature answers at an elapsed time. *)
Variable sendTransaction : nat -> option string.
Variable getSignatureStatus : string -> N -> SignatureStatus.

(** The policy: how many times a failed send is retried, the sleep
    between two polls, and the elapsed-time budget of the polling. *)
Variable sendRetries : nat.
Variable pollInterval : positive.
Variable budget : N.

(** Modelled from the spec: [src/client/util/send-and-confirm-transaction.js]
    is not among the sources.  State [Submitting]: "send the transaction
    once; a transport-level error here is retried a bounded number of
    times with a fixed delay before giving up". *)
Fixpoint submitting (retriesLeft attempt : nat) : option string :=
  match sendTransaction attempt with
  | Some signature => Some signature
  | None =>
      match retriesLeft with
      | O => None
      | S retriesLeft' => submitting retriesLeft' (S attempt)
      end
  end.

(** Modelled from the spec: [src/client/util/send-and-confirm-transaction.js]
    is not among the sources.  State [Pending]: "repeatedly query status
    by signature, sleeping a fixed interval between polls, until either
    a terminal status is observed or an overall elapsed-time budget is
    exceeded"; an explicit ok is [Confirmed], an explicit error is
    [Failed], and the budget exceeded with the status still null is
    [TimedOut]. *)
Equations? pending (signature : string) (elapsed : N) : Outcome
  by wf (N.to_nat (budget + 1 - elapsed)) lt :=
  pending signature elapsed with getSignatureStatus signature elapsed := {
    | StatusOk := Confirmed signature
    | StatusErr reason := Failed (OnChainError reason)
    | StatusNull with within elapsed budget := {
        | left _ := pending signature (elapsed + N.pos pollInterval)
        | right _ := TimedOut } }.
Proof. lia. Qed.

(** Modelled from the spec: [src/client/util/send-and-confirm-transaction.js]
    is not among the sources.  The state machine
    [Submitting -> Pending -> {Confirmed, Failed, TimedOut}]; a send that
    is given up is "surfaced as Failed(transport)". *)
Definition sendAndConfirmTransaction : Outcome :=
  match submitting sendRetries 0 with
  | Some signature => pending signature 0
  | None => Failed TransportError
  end.

End Loop.

End Confirmation.

(** * What the statements are written with *)

(** The two hex digits [fromBuffer] prints for a byte. *)
Definition hex2 (i : byte) : string :=
  String_slice_last 2 ("00" ++ Number_toString16 i)%string.

(** The fields of a token account, at their offsets in the account data. *)
Definition account_fields (data : Buffer.t) (state : Z) : object :=
  [ ("state", Num state);
    ("token", Buf (Buffer.slice data 1 33));
    ("owner", Buf (Buffer.slice data 33 65));
    ("amount", Buf (Buffer.slice data 65 73));
    ("sourceOption",
      Num (BufferLayout.round_double (le_combine (Buffer.slice data 73 81))));
    ("source", Buf (Buffer.slice data 81 113));
    ("originalAmount", Buf (Buffer.slice data 113 121)) ].

(** The fields of a token, at their offsets in the account data. *)
Definition token_fields (data : Buffer.t) (state decimals : Z) : object :=
  [ ("state", Num state);
    ("supply", Buf (Buffer.slice data 1 9));
    ("decimals", Num decimals) ].

(** The key that [new PublicKey] makes of the bytes of a field. *)
Definition key_at (data : Buffer.t) (s e : nat) : PublicKey.t :=
  {| PublicKey._bn := BN.of_bytes (Buffer.slice data s e) |}.

(** What [accountInfo] returns: the decoded object with its fields
    overwritten. *)
Definition account_object (data : Buffer.t) (state : Z) (source : value)
    (originalAmount : Z) : object :=
  [ ("state", Num state);
    ("token", Key (key_at data 1 33));
    ("owner", Key (key_at data 33 65));
    ("amount", Amount (le_combine (Buffer.slice data 65 73)));
    ("sourceOption",
      Num (BufferLayout.round_double (le_combine (Buffer.slice data 73 81))));
    ("source", source);
    ("originalAmount", Amount originalAmount) ].

(** [accountInfo], check by check. *)
Definition accountInfo_checks (this : Token.t) (ai : AccountInfo.t) : result object :=
  let data := AccountInfo.data ai in
  if negb (PublicKey.equals (AccountInfo.owner ai) (Token.programId this))
  then Throw (Error "Invalid token account owner")
  else
    match nth_error data 0 with
    | None => Throw RangeError
    | Some x =>
        if (length data <? 81)%nat then Throw RangeError
        else if negb (byte.unsigned x =? 2) then Throw (Error "Invalid token account data")
        else
          o <- (if le_combine (Buffer.slice data 73 81) =? 0
                then Ok (account_object data 2 Null 0)
                else
                  a <- TokenAmount.fromBuffer (Buffer.slice data 113 121) ;;
                  Ok (account_object data 2 (Key (key_at data 81 113)) a)) ;;
          if negb (PublicKey.equals (key_at data 1 33) (Token.token this))
          then Throw (Error "Invalid token account token")
          else Ok o
    end.

(** [tokenInfo], check by check. *)
Definition tokenInfo_checks (this : Token.t) (ai : AccountInfo.t) : result object :=
  let data := AccountInfo.data ai in
  if negb (PublicKey.equals (AccountInfo.owner ai) (Token.programId this))
  then Throw (Error "Invalid token owner")
  else
    match nth_error data 0, nth_error data 9 with
    | Some x, Some d =>
        if negb (byte.unsigned x =? 1) then Throw (Error "Invalid token account data")
        else Ok [ ("state", Num 1);
                  ("supply", Amount (le_combine (Buffer.slice data 1 9)));
                  ("decimals", Num (byte.unsigned d)) ]
    | _, _ => Throw RangeError
    end.

(** The three keys of an instruction on an account: the owner signs, the
    two accounts are written. *)
Definition owner_and_two (owner a b : PublicKey.t) : list AccountMeta.t :=
  [ {| AccountMeta.pubkey := owner;
       AccountMeta.isSigner := true; AccountMeta.isWritable := false |};
    {| AccountMeta.pubkey := a;
       AccountMeta.isSigner := false; AccountMeta.isWritable := true |};
    {| AccountMeta.pubkey := b;
       AccountMeta.isSigner := false; AccountMeta.isWritable := true |} ].

(** The instruction that approves nothing. *)
Definition zero_approval (this : Token.t) (owner account delegate : PublicKey.t)
  : TransactionInstruction.t :=
  {| TransactionInstruction.keys := owner_and_two owner account delegate;
     TransactionInstruction.programId := Token.programId this;
     TransactionInstruction.data :=
       [ Byte.x03; Byte.x00; Byte.x00; Byte.x00; Byte.x00; Byte.x00; Byte.x00;
         Byte.x00; Byte.x00 ] |}.

(** The amounts for which [new TokenAmount(amount).toBuffer()] gives the 8
    bytes that the [amount] field takes: a number below [2^53], a
    [TokenAmount] below [2^64], a plain [BN] of exactly 8 significant
    bytes. *)
Definition encodable (amount : TokenAmount.arg) : bool :=
  match amount with
  | TokenAmount.OfNumber n => Z.abs n <? 2 ^ 53
  | TokenAmount.OfAmount a => Z.abs a <? 2 ^ 64
  | TokenAmount.OfBN a => (2 ^ 56 <=? Z.abs a) && (Z.abs a <? 2 ^ 64)
  end.

(** The 8 bytes of the [amount] field: the magnitude, little-endian for a
    number and for a [TokenAmount], big-endian for a plain [BN]. *)
Definition amount_bytes (amount : TokenAmount.arg) : list byte :=
  match amount with
  | TokenAmount.OfNumber v | TokenAmount.OfAmount v => le_split 8 (Z.abs v)
  | TokenAmount.OfBN v => rev (le_split 8 (Z.abs v))
  end.

(** What is raised for the other amounts: by the constructor of [BN] for a
    number, by [TokenAmount.toBuffer] for a [TokenAmount], by the encoder of
    the 8-byte field for a plain [BN]. *)
Definition amount_error (amount : TokenAmount.arg) : exn :=
  match amount with
  | TokenAmount.OfNumber _ => Error "Assertion failed"
  | TokenAmount.OfAmount _ => AssertionError "TokenAmount too large"
  | TokenAmount.OfBN _ => TypeError
  end.

(** The amount that the program reads in the [amount] field, little-endian. *)
Definition amount_read (amount : TokenAmount.arg) : Z :=
  match amount with
  | TokenAmount.OfNumber v | TokenAmount.OfAmount v => Z.abs v
  | TokenAmount.OfBN v => le_combine (rev (le_split 8 (Z.abs v)))
  end.

(** Reading a Transfer or Approve payload back with the layout that wrote
    it: the tag and the amount. *)
Definition read_tag_amount (data : Buffer.t) : result (option value * TokenAmount.t) :=
  o <- BufferLayout.struct_decode
         [ BufferLayout.u8 "instruction"; Layout.uint64 "amount" ] data ;;
  b <- as_buffer (get_prop o "amount") ;;
  a <- TokenAmount.fromBuffer b ;;
  Ok (get_prop o "instruction", a).


(** The instruction that [newAccount] sends to initialize the account. *)
Definition newAccount_instruction (this : Token.t) (owner : Account.t)
    (source : option PublicKey.t) (tokenAccount : Account.t)
  : TransactionInstruction.t :=
  {| TransactionInstruction.keys :=
       [ {| AccountMeta.pubkey := Account.publicKey tokenAccount;
            AccountMeta.isSigner := true; AccountMeta.isWritable := true |};
         {| AccountMeta.pubkey := Account.publicKey owner;
            AccountMeta.isSigner := false; AccountMeta.isWritable := false |};
         {| AccountMeta.pubkey := Token.token this;
            AccountMeta.isSigner := false; AccountMeta.isWritable := false |} ]
       ++ match source with
          | Some source =>
              [ {| AccountMeta.pubkey := source;
                   AccountMeta.isSigner := false; AccountMeta.isWritable := false |} ]
          | None => []
          end;
     TransactionInstruction.programId := Token.programId this;
     TransactionInstruction.data := [Byte.x01] |}.

(** What [newAccount] asks [SystemProgram.createAccount] for. *)
Definition newAccount_allocation (this : Token.t) (owner tokenAccount : Account.t)
    (balanceNeeded : Z) : SystemProgram.CreateAccountParams :=
  {| SystemProgram.fromPubkey := Account.publicKey owner;
     SystemProgram.newAccountPubkey := Account.publicKey tokenAccount;
     SystemProgram.lamports := balanceNeeded;
     SystemProgram.space := 121;
     SystemProgram.programId := Token.programId this |}.

(** [newAccount], send by send. *)
Definition newAccount_sends (Signature : Type)
    (sendAndConfirmTransaction :
       string -> Connection.t -> Transaction.t -> list Account.t -> result Signature)
    (getMinimumBalanceForRentExemption : Connection.t -> nat -> result Z)
    (createAccount : SystemProgram.CreateAccountParams -> Transaction.t)
    (this : Token.t) (owner : Account.t) (source : option PublicKey.t)
    (tokenAccount : Account.t) : result PublicKey.t :=
  balanceNeeded <- getMinimumBalanceForRentExemption (Token.connection this) 121%nat ;;
  _ <- sendAndConfirmTransaction "createAccount" (Token.connection this)
         (createAccount (newAccount_allocation this owner tokenAccount balanceNeeded))
         [owner; tokenAccount] ;;
  _ <- sendAndConfirmTransaction "init tokenAccount" (Token.connection this)
         [newAccount_instruction this owner source tokenAccount]
         [owner; tokenAccount] ;;
  Ok (Account.publicKey tokenAccount).


(** ** Sample accounts *)

Definition sample_programId : PublicKey.t := {| PublicKey._bn := 7 |}.

Definition sample_account : PublicKey.t := {| PublicKey._bn := 99 |}.

(** A token account of 121 bytes: state, token, owner, amount 10000, the
    given [sourceOption] bytes, then a source key and an original amount
    of 456. *)
Definition sample_data (state : byte) (sourceOption : list byte) : list byte :=
  [state] ++ repeat Byte.x11 32 ++ repeat Byte.x22 32
    ++ [Byte.x10; Byte.x27; Byte.x00; Byte.x00; Byte.x00; Byte.x00; Byte.x00; Byte.x00]
    ++ sourceOption
    ++ repeat Byte.x33 32
    ++ [Byte.xc8; Byte.x01; Byte.x00; Byte.x00; Byte.x00; Byte.x00; Byte.x00; Byte.x00].

Definition sample_info (data : list byte) : AccountInfo.t :=
  {| AccountInfo.owner := sample_programId; AccountInfo.lamports := 1;
     AccountInfo.data := data; AccountInfo.executable := false |}.

Definition sample_connection (data : list byte) : Connection.t :=
  {| Connection.getAccountInfo := fun _ => Ok (sample_info data) |}.

Definition sample_token (token : PublicKey.t) (data : list byte) : Token.t :=
  {| Token.connection := sample_connection data;
     Token.token := token;
     Token.programId := sample_programId |}.

Definition key_x11 : PublicKey.t := {| PublicKey._bn := BN.of_bytes (repeat Byte.x11 32) |}.
Definition key_x22 : PublicKey.t := {| PublicKey._bn := BN.of_bytes (repeat Byte.x22 32) |}.
Definition key_x33 : PublicKey.t := {| PublicKey._bn := BN.of_bytes (repeat Byte.x33 32) |}.

Definition direct_data : list byte := sample_data Byte.x02 (repeat Byte.x00 8).

Definition delegate_data : list byte :=
  sample_data Byte.x02
    [Byte.x01; Byte.x00; Byte.x00; Byte.x00; Byte.x00; Byte.x00; Byte.x00; Byte.x00].

(** The token data of the repository's test: state 1, supply 10000,
    decimals 2. *)
Definition sample_token_data (state : byte) : list byte :=
  [state; Byte.x10; Byte.x27; Byte.x00; Byte.x00; Byte.x00; Byte.x00; Byte.x00;
   Byte.x00; Byte.x02].

(** A network that confirms every transaction, one that rejects the
    transactions of a given title, a rent of 7 lamports a byte, and a
    [createAccount] that builds an empty transaction. *)
Definition sample_send (title : string) (connection : Connection.t)
    (transaction : Transaction.t) (signers : list Account.t) : result string :=
  Ok "sig".

Definition sample_send_rejecting (rejected : string) (title : string)
    (connection : Connection.t) (transaction : Transaction.t)
    (signers : list Account.t) : result string :=
  if String.eqb title rejected then Throw (Error "rejected") else Ok "sig".

Definition sample_rent (connection : Connection.t) (dataLength : nat) : result Z :=
  Ok (7 * Z.of_nat dataLength).

Definition sample_createAccount (params : SystemProgram.CreateAccountParams)
  : Transaction.t := [].

Definition sample_owner : Account.t := {| Account.publicKey := key_x22 |}.

Definition sample_new_account : Account.t := {| Account.publicKey := key_x33 |}.


(** * Properties *)

(** ** Arithmetic of byte strings *)

Lemma toArray_loop_le_split (n : nat) (q : Z) :
  BN.toArray_loop n q = le_split n q.
Proof.
  revert q; induction n as [|n IH]; intros q; [reflexivity|].
  cbn [BN.toArray_loop]. change (le_split (S n) q) with (byte.of_Z q :: le_split n (Z.shiftr q 8)).
  rewrite IH. f_equal.
  apply byte.unsigned_inj. rewrite !byte.unsigned_of_Z. unfold byte.wrap.
  change 255 with (Z.ones 8). rewrite Z.land_ones by lia.
  rewrite Z.mod_mod by lia. reflexivity.
Qed.

Example toBuffer_10000 :
  TokenAmount.toBuffer 10000
  = Ok [Byte.x10; Byte.x27; Byte.x00; Byte.x00; Byte.x00; Byte.x00; Byte.x00; Byte.x00].
Proof. reflexivity. Qed.

Example fromBuffer_10000 :
  TokenAmount.fromBuffer
    [Byte.x10; Byte.x27; Byte.x00; Byte.x00; Byte.x00; Byte.x00; Byte.x00; Byte.x00]
  = Ok 10000.
Proof. reflexivity. Qed.

Lemma byteLength_le (v : Z) (n : nat) :
  0 <= v < 2 ^ (8 * Z.of_nat n) -> (BN.byteLength v <= n)%nat.
Proof.
  intros [Hv Hlt]. unfold BN.byteLength, BN.bitLength.
  destruct (Z.eqb_spec v 0) as [->|Hnz]; [cbn; lia|].
  rewrite Z.abs_eq by lia.
  assert (Z.log2 v < 8 * Z.of_nat n) by (apply Z.log2_lt_pow2; lia).
  assert (0 <= Z.log2 v) by apply Z.log2_nonneg.
  assert ((Z.log2 v + 1 + 7) / 8 <= Z.of_nat n).
  { apply Z.lt_succ_r. apply Z.div_lt_upper_bound; lia. }
  lia.
Qed.

Lemma byteLength_covers (v : Z) :
  0 <= v -> v < 2 ^ (8 * Z.of_nat (BN.byteLength v)).
Proof.
  intros Hv. unfold BN.byteLength, BN.bitLength.
  destruct (Z.eqb_spec v 0) as [->|Hnz]; [cbn; lia|].
  rewrite Z.abs_eq by lia.
  assert (0 <= Z.log2 v) by apply Z.log2_nonneg.
  rewrite Z2Nat.id by (apply Z.div_pos; lia).
  apply Z.log2_lt_pow2; [lia|].
  pose proof (Z.mul_div_le (Z.log2 v + 1 + 7) 8 ltac:(lia)).
  pose proof (Z.mod_pos_bound (Z.log2 v + 1 + 7) 8 ltac:(lia)).
  pose proof (Z.div_mod (Z.log2 v + 1 + 7) 8 ltac:(lia)).
  lia.
Qed.

Lemma byteLength_gt (v : Z) (n : nat) :
  2 ^ (8 * Z.of_nat n) <= v -> (n < BN.byteLength v)%nat.
Proof.
  intros Hle.
  assert (0 < 2 ^ (8 * Z.of_nat n)) by (apply Z.pow_pos_nonneg; lia).
  destruct (Nat.lt_ge_cases n (BN.byteLength v)) as [|Hge]; [assumption|exfalso].
  pose proof (byteLength_covers v ltac:(lia)) as Hc.
  assert (2 ^ (8 * Z.of_nat (BN.byteLength v)) <= 2 ^ (8 * Z.of_nat n))
    by (apply Z.pow_le_mono_r; lia).
  lia.
Qed.

Lemma length_toArray (v : Z) :
  length (BN.toArray v) = Nat.max 1 (BN.byteLength v).
Proof.
  unfold BN.toArray. rewrite length_rev, toArray_loop_le_split.
  apply length_le_split.
Qed.

(** A magnitude written on [n] bytes and padded with zeros is the magnitude
    written on [m] bytes. *)
Lemma le_split_pad (n m : nat) (v : Z) :
  (n <= m)%nat -> 0 <= v < 2 ^ (8 * Z.of_nat n) ->
  le_split n v ++ repeat Byte.x00 (m - n) = le_split m v.
Proof.
  intros Hnm Hv. apply le_combine_inj.
  - rewrite length_app, repeat_length, !length_le_split. lia.
  - rewrite le_combine_app_0, !le_combine_split.
    assert (2 ^ (8 * Z.of_nat n) <= 2 ^ (8 * Z.of_nat m))
      by (apply Z.pow_le_mono_r; lia).
    replace (Z.of_nat n * 8) with (8 * Z.of_nat n) by lia.
    replace (Z.of_nat m * 8) with (8 * Z.of_nat m) by lia.
    rewrite !Z.mod_small; lia.
Qed.

(** *** Hexadecimal text of a byte string *)

Lemma hex2_digits (i : byte) :
  exists c1 c2,
    hex2 i = String c1 (String c2 EmptyString)
    /\ BN.parseHex4Bits c1 = Ok (byte.unsigned i / 16)
    /\ BN.parseHex4Bits c2 = Ok (byte.unsigned i mod 16)
    /\ c1 <> "-"%char.
Proof.
  destruct i; do 2 eexists; (split; [vm_compute; reflexivity|]);
    (split; [vm_compute; reflexivity|]); (split; [vm_compute; reflexivity|]);
    discriminate.
Qed.

Lemma parseHex_hex2 (i : byte) (s : string) (acc : Z) :
  BN.parseHex (hex2 i ++ s)%string acc
  = BN.parseHex s (acc * 256 + byte.unsigned i).
Proof.
  destruct (hex2_digits i) as (c1 & c2 & -> & H1 & H2 & _).
  cbn [String.append BN.parseHex]. rewrite H1. cbn [bind]. rewrite H2. cbn [bind].
  f_equal.
  pose proof (Z.div_mod (byte.unsigned i) 16 ltac:(lia)). lia.
Qed.

Lemma Array_join_cons (x : string) (l : list string) :
  Array_join (x :: l) = (x ++ Array_join l)%string.
Proof.
  unfold Array_join. destruct l as [|y l]; cbn [concat].
  - induction x as [|c x IHx]; cbn; [reflexivity|f_equal; exact IHx].
  - reflexivity.
Qed.

Lemma parseHex_join (l : list byte) (acc : Z) :
  BN.parseHex (Array_join (map hex2 l)) acc
  = Ok (fold_left (fun a x => a * 256 + byte.unsigned x) l acc).
Proof.
  revert acc; induction l as [|i l IH]; intros acc; [reflexivity|].
  cbn [map]. rewrite Array_join_cons, parseHex_hex2, IH. reflexivity.
Qed.

Lemma of_hex_join (l : list byte) :
  BN.of_hex (Array_join (map hex2 l)) = Ok (BN.of_bytes l).
Proof.
  unfold BN.of_bytes. rewrite <- parseHex_join.
  destruct l as [|i l]; [reflexivity|].
  cbn [map]. rewrite Array_join_cons.
  destruct (hex2_digits i) as (c1 & c2 & -> & _ & _ & Hc).
  cbn [String.append]. unfold BN.of_hex.
  destruct c1 as [[] [] [] [] [] [] [] []]; try reflexivity.
  exfalso; apply Hc; reflexivity.
Qed.

Lemma lor_shiftl_add (a b n : Z) :
  0 <= n -> 0 <= a < 2 ^ n -> Z.lor a (Z.shiftl b n) = a + b * 2 ^ n.
Proof.
  intros Hn Ha. rewrite <- Z.shiftl_mul_pow2 by lia.
  rewrite <- Z.lxor_lor, Z.add_nocarry_lxor; [reflexivity| |].
  all: rewrite <- (Z.mod_small a (2 ^ n)) by lia.
  all: apply Z.bits_inj'; intros i Hi; rewrite Z.land_spec, Z.bits_0.
  all: destruct (Z.ltb_spec i n);
    [rewrite Z.shiftl_spec_low by lia; apply andb_false_r
    |rewrite Z.mod_pow2_bits_high by lia; reflexivity].
Qed.

Lemma le_combine_app_add (l1 l2 : list byte) :
  le_combine (l1 ++ l2)
  = le_combine l1 + le_combine l2 * 2 ^ (8 * Z.of_nat (length l1)).
Proof.
  rewrite le_combine_app.
  replace (Z.of_nat (length l1) * 8) with (8 * Z.of_nat (length l1)) by lia.
  apply lor_shiftl_add; [lia|apply le_combine_bound].
Qed.

Lemma fold_left_be (l : list byte) (acc : Z) :
  fold_left (fun a x => a * 256 + byte.unsigned x) l acc
  = acc * 2 ^ (8 * Z.of_nat (length l)) + le_combine (rev l).
Proof.
  revert acc; induction l as [|i l IH]; intros acc.
  - cbn. rewrite le_combine_nil. lia.
  - cbn [fold_left rev length]. rewrite IH, le_combine_app_add, le_combine_1.
    rewrite length_rev, Nat2Z.inj_succ.
    replace (8 * Z.succ (Z.of_nat (length l))) with (8 + 8 * Z.of_nat (length l)) by lia.
    rewrite Z.pow_add_r by lia. change (2 ^ 8) with 256. ring.
Qed.

Lemma of_bytes_rev (l : list byte) : BN.of_bytes (rev l) = le_combine l.
Proof.
  unfold BN.of_bytes. rewrite fold_left_be, rev_involutive. lia.
Qed.

Lemma skipn_repeat {A : Type} (x : A) (n m : nat) :
  skipn n (repeat x m) = repeat x (m - n).
Proof.
  revert m; induction n as [|n IH]; intros [|m]; cbn; auto.
Qed.

(** ** TokenAmount *)

Lemma toBuffer_le_split (v : Z) :
  0 <= v < 2 ^ 64 -> TokenAmount.toBuffer v = Ok (le_split 8 v).
Proof.
  intros Hv. unfold TokenAmount.toBuffer, Buffer.from, BN.toArray.
  rewrite rev_involutive, toArray_loop_le_split, Z.abs_eq by lia.
  rewrite length_le_split.
  pose proof (byteLength_le v 8 Hv) as Hle.
  pose proof (byteLength_covers v ltac:(lia)) as Hcov.
  set (n := Nat.max 1 (BN.byteLength v)).
  assert (Hn : (n <= 8)%nat) by (subst n; lia).
  assert (Hvn : 0 <= v < 2 ^ (8 * Z.of_nat n)).
  { split; [lia|]. eapply Z.lt_le_trans; [exact Hcov|].
    apply Z.pow_le_mono_r; subst n; lia. }
  destruct (Nat.eqb_spec n 8) as [->|Hne]; [reflexivity|].
  assert (Hlt : (n <? 8)%nat = true) by (apply Nat.ltb_lt; lia).
  rewrite Hlt. cbn [assert bind]. f_equal.
  unfold Buffer.copy, Buffer.alloc. rewrite length_le_split, repeat_length.
  rewrite skipn_repeat, le_split_pad by assumption.
  rewrite firstn_all2; [reflexivity|rewrite length_le_split; lia].
Qed.

Lemma toBuffer_too_large (v : Z) :
  2 ^ 64 <= v ->
  TokenAmount.toBuffer v = Throw (AssertionError "TokenAmount too large").
Proof.
  intros Hv. unfold TokenAmount.toBuffer, Buffer.from.
  rewrite length_rev, length_toArray.
  pose proof (byteLength_gt v 8 Hv) as Hgt.
  destruct (Nat.eqb_spec (Nat.max 1 (BN.byteLength v)) 8) as [|_]; [lia|].
  destruct (Nat.ltb_spec (Nat.max 1 (BN.byteLength v)) 8) as [|_]; [lia|].
  reflexivity.
Qed.

(** [toBuffer] reads the magnitude only. *)
Lemma toBuffer_abs (v : Z) : TokenAmount.toBuffer v = TokenAmount.toBuffer (Z.abs v).
Proof.
  unfold TokenAmount.toBuffer, BN.toArray, BN.byteLength, BN.bitLength.
  rewrite Z.abs_idemp.
  replace (Z.abs v =? 0) with (v =? 0) by (destruct v; reflexivity).
  reflexivity.
Qed.

Lemma fromBuffer_le_combine (b : Buffer.t) :
  length b = 8%nat -> TokenAmount.fromBuffer b = Ok (le_combine b).
Proof.
  intros Hlen. unfold TokenAmount.fromBuffer. rewrite Hlen. cbn [Nat.eqb assert bind].
  change (fun i => String_slice_last 2 ("00" ++ Number_toString16 i)%string) with hex2.
  rewrite of_hex_join, of_bytes_rev. reflexivity.
Qed.

(** C1. For every amount [v] with [0 <= v < 2^64], encoding succeeds and
    decoding the encoded buffer gives back [v]:
    [TokenAmount.fromBuffer(new TokenAmount(v).toBuffer())] equals [v]. *)
Theorem C1_amount_round_trip (v : TokenAmount.t) :
  0 <= v < 2 ^ 64 ->
  (b <- TokenAmount.toBuffer v ;; TokenAmount.fromBuffer b) = Ok v.
Proof.
  intros Hv. rewrite toBuffer_le_split by assumption. cbn [bind].
  rewrite fromBuffer_le_combine by apply length_le_split.
  rewrite le_combine_split. change (2 ^ (Z.of_nat 8 * 8)) with (2 ^ 64).
  rewrite Z.mod_small by lia. reflexivity.
Qed.

Lemma C1_amount_round_trip_witness :
  (b <- TokenAmount.toBuffer 10000 ;; TokenAmount.fromBuffer b) = Ok 10000.
Proof. apply (C1_amount_round_trip 10000). lia. Defined.

(** ** Buffers *)

Lemma length_slice (b : Buffer.t) (s e : nat) :
  (s <= e)%nat -> (e <= length b)%nat -> length (Buffer.slice b s e) = (e - s)%nat.
Proof.
  intros Hse He. unfold Buffer.slice. rewrite length_firstn, length_skipn. lia.
Qed.

Lemma firstn_add {A : Type} (n m : nat) (l : list A) :
  firstn (n + m) l = firstn n l ++ firstn m (skipn n l).
Proof.
  revert l; induction n as [|n IH]; intros [|x l]; cbn;
    rewrite ?firstn_nil; try reflexivity.
  f_equal. apply IH.
Qed.

Lemma slice_app (b : Buffer.t) (s m e : nat) :
  (s <= m)%nat -> (m <= e)%nat ->
  Buffer.slice b s e = Buffer.slice b s m ++ Buffer.slice b m e.
Proof.
  intros Hsm Hme. unfold Buffer.slice.
  replace (e - s)%nat with ((m - s) + (e - m))%nat by lia.
  rewrite firstn_add, skipn_skipn.
  replace (m - s + s)%nat with m by lia. reflexivity.
Qed.

Lemma slice_prefix (h t : list byte) (s e : nat) :
  (e <= length h)%nat -> Buffer.slice (h ++ t) s e = Buffer.slice h s e.
Proof.
  intros He. unfold Buffer.slice.
  rewrite skipn_app, firstn_app, length_skipn.
  replace (e - s - (length h - s))%nat with 0%nat by lia.
  cbn [firstn]. apply app_nil_r.
Qed.

Lemma le_combine_cons (x : byte) (l : list byte) :
  le_combine (x :: l) = byte.unsigned x + 256 * le_combine l.
Proof.
  change (le_combine (x :: l)) with (Z.lor (byte.unsigned x) (Z.shiftl (le_combine l) 8)).
  rewrite lor_shiftl_add; [lia|lia|apply byte.unsigned_range].
Qed.

Lemma readUInt32LE_fits (b : Buffer.t) (offset : nat) :
  (offset + 4 <= length b)%nat ->
  Buffer.readUInt32LE b offset
  = Ok (le_combine (Buffer.slice b offset (offset + 4))).
Proof.
  intros Hfit. unfold Buffer.readUInt32LE, Buffer.slice.
  replace (offset + 4 - offset)%nat with 4%nat by lia.
  pose proof (length_skipn offset b) as Hlen.
  destruct (skipn offset b) as [|x0 [|x1 [|x2 [|x3 rest]]]]; cbn [length] in Hlen; try lia.
  cbn [firstn]. rewrite !le_combine_cons, le_combine_nil. f_equal. lia.
Qed.

Lemma readUInt32LE_short (b : Buffer.t) (offset : nat) :
  (length b < offset + 4)%nat -> Buffer.readUInt32LE b offset = Throw RangeError.
Proof.
  intros Hshort. unfold Buffer.readUInt32LE.
  pose proof (length_skipn offset b) as Hlen.
  destruct (skipn offset b) as [|x0 [|x1 [|x2 [|x3 rest]]]]; cbn [length] in Hlen;
    try reflexivity; lia.
Qed.

(** ** The number a [nu64] field decodes to *)

Lemma round_double_zero (x : Z) :
  0 <= x -> (BufferLayout.round_double x =? 0) = (x =? 0).
Proof.
  intros Hx. unfold BufferLayout.round_double.
  destruct (Z.leb_spec (Z.log2 x - 52) 0) as [|He]; [reflexivity|].
  set (e := Z.log2 x - 52) in *.
  assert (Hxpos : 0 < x) by (destruct (Z.eq_dec x 0) as [->|]; [cbn in He; lia|lia]).
  assert (Hpow : 0 < 2 ^ e) by (apply Z.pow_pos_nonneg; lia).
  assert (Hq : 1 <= Z.shiftr x e).
  { rewrite Z.shiftr_div_pow2 by lia.
    apply Z.div_le_lower_bound; [lia|].
    rewrite Z.mul_1_r. transitivity (2 ^ Z.log2 x).
    - apply Z.pow_le_mono_r; lia.
    - apply Z.log2_spec; lia. }
  assert (Hne : (x =? 0) = false) by (apply Z.eqb_neq; lia).
  rewrite Hne.
  match goal with |- context [if ?c then _ else _] => destruct c end;
    apply Z.eqb_neq; rewrite Z.shiftl_mul_pow2 by lia; nia.
Qed.

Lemma decode_nu64_fits (p : string) (b : Buffer.t) (offset : nat) :
  (offset + 8 <= length b)%nat ->
  BufferLayout.decode (BufferLayout.nu64 p) b offset
  = Ok (Num (BufferLayout.round_double
               (le_combine (Buffer.slice b offset (offset + 8))))).
Proof.
  intros Hfit. cbn [BufferLayout.decode].
  rewrite !readUInt32LE_fits by lia. cbn [bind]. unfold BufferLayout.roundedInt64.
  rewrite (slice_app b offset (offset + 4) (offset + 8)) by lia.
  rewrite le_combine_app_add, length_slice by lia.
  replace (offset + 4 + 4)%nat with (offset + 8)%nat by lia.
  do 3 f_equal. replace (offset + 4 - offset)%nat with 4%nat by lia.
  change (2 ^ (8 * Z.of_nat 4)) with 4294967296. lia.
Qed.

Lemma decode_nu64_short (p : string) (b : Buffer.t) (offset : nat) :
  (length b < offset + 8)%nat ->
  BufferLayout.decode (BufferLayout.nu64 p) b offset = Throw RangeError.
Proof.
  intros Hshort. cbn [BufferLayout.decode].
  destruct (Nat.lt_ge_cases (length b) (offset + 4)) as [Hlo|Hlo].
  - rewrite readUInt32LE_short by lia. reflexivity.
  - rewrite readUInt32LE_fits by lia. cbn [bind].
    rewrite readUInt32LE_short by lia. reflexivity.
Qed.

(** ** Public keys *)

Lemma of_bytes_bound (b : list byte) :
  0 <= BN.of_bytes b < 2 ^ (8 * Z.of_nat (length b)).
Proof.
  rewrite <- (rev_involutive b) at 1 2. rewrite of_bytes_rev.
  rewrite <- (length_rev b). apply le_combine_bound.
Qed.

Lemma PublicKey_new_fits (b : Buffer.t) :
  (length b <= 32)%nat -> PublicKey.new b = Ok {| PublicKey._bn := BN.of_bytes b |}.
Proof.
  intros Hlen. unfold PublicKey.new.
  pose proof (byteLength_le _ _ (of_bytes_bound b)) as Hbl.
  destruct (Nat.ltb_spec 32 (BN.byteLength (BN.of_bytes b))); [lia|reflexivity].
Qed.

(** ** Decoding the two account layouts *)

Lemma decode_TokenAccountInfoLayout (data : Buffer.t) (x : byte) :
  nth_error data 0 = Some x -> (81 <= length data)%nat ->
  BufferLayout.struct_decode TokenAccountInfoLayout data
  = Ok (account_fields data (byte.unsigned x)).
Proof.
  intros Hx Hlen.
  unfold BufferLayout.struct_decode, TokenAccountInfoLayout, Layout.publicKey, Layout.uint64.
  cbn [BufferLayout.struct_decode_loop BufferLayout.span BufferLayout.property].
  cbn [BufferLayout.decode]. unfold Buffer.readUInt8 at 1. rewrite Hx.
  cbn [bind Nat.add].
  pose proof (decode_nu64_fits "sourceOption" data 73 ltac:(lia)) as Hso.
  cbn [BufferLayout.decode Nat.add] in Hso. rewrite Hso.
  reflexivity.
Qed.

Lemma decode_TokenAccountInfoLayout_short (data : Buffer.t) :
  (length data < 81)%nat ->
  BufferLayout.struct_decode TokenAccountInfoLayout data = Throw RangeError.
Proof.
  intros Hlen.
  unfold BufferLayout.struct_decode, TokenAccountInfoLayout, Layout.publicKey, Layout.uint64.
  cbn [BufferLayout.struct_decode_loop BufferLayout.span BufferLayout.property].
  cbn [BufferLayout.decode]. unfold Buffer.readUInt8 at 1.
  destruct (nth_error data 0); [|reflexivity].
  cbn [bind Nat.add].
  pose proof (decode_nu64_short "sourceOption" data 73 ltac:(lia)) as Hso.
  cbn [BufferLayout.decode Nat.add] in Hso.
  destruct (Buffer.readUInt32LE data 73) as [lo|e]; cbn [bind] in Hso |- *.
  - destruct (Buffer.readUInt32LE data 77) as [hi|e]; cbn [bind] in Hso |- *;
      [discriminate|congruence].
  - congruence.
Qed.

Lemma decode_TokenInfoLayout (data : Buffer.t) :
  BufferLayout.struct_decode TokenInfoLayout data
  = match nth_error data 0, nth_error data 9 with
    | Some x, Some d => Ok (token_fields data (byte.unsigned x) (byte.unsigned d))
    | _, _ => Throw RangeError
    end.
Proof.
  unfold BufferLayout.struct_decode, TokenInfoLayout, Layout.uint64.
  cbn [BufferLayout.struct_decode_loop BufferLayout.span BufferLayout.property].
  cbn [BufferLayout.decode]. unfold Buffer.readUInt8.
  destruct (nth_error data 0); [|reflexivity].
  cbn [bind Nat.add].
  destruct (nth_error data 9); reflexivity.
Qed.

Lemma length_slice_le (b : Buffer.t) (s e : nat) :
  (length (Buffer.slice b s e) <= e - s)%nat.
Proof. unfold Buffer.slice. rewrite length_firstn. lia. Qed.

(** One step of an embedded method: property reads and writes on an object
    with known keys, and the sequencing of results. *)
Ltac js_step :=
  cbn [bind as_key as_buffer strict_eq_num get_prop set_prop
       String.eqb Ascii.eqb Bool.eqb].

Lemma accountInfo_unfold (this : Token.t) (account : PublicKey.t) :
  Token.accountInfo this account
  = (ai <- Connection.getAccountInfo (Token.connection this) account ;;
     accountInfo_checks this ai).
Proof.
  unfold Token.accountInfo, accountInfo_checks, Buffer.from.
  destruct (Connection.getAccountInfo _ _) as [ai|e]; [cbn [bind]|reflexivity].
  destruct (PublicKey.equals (AccountInfo.owner ai) _); [cbn [negb]|reflexivity].
  set (data := AccountInfo.data ai).
  destruct (nth_error data 0) as [x|] eqn:Hx.
  2:{ rewrite decode_TokenAccountInfoLayout_short; [reflexivity|].
      apply nth_error_None in Hx. lia. }
  destruct (Nat.ltb_spec (length data) 81) as [Hshort|Hlen].
  { rewrite decode_TokenAccountInfoLayout_short by assumption. reflexivity. }
  rewrite (decode_TokenAccountInfoLayout data x) by assumption.
  unfold account_fields.
  cbn [bind get_prop String.eqb Ascii.eqb Bool.eqb strict_eq_num].
  destruct (Z.eqb_spec (byte.unsigned x) 2) as [Hst|Hst]; [cbn [negb]|reflexivity].
  js_step. rewrite PublicKey_new_fits by apply length_slice_le.
  js_step. rewrite PublicKey_new_fits by apply length_slice_le.
  js_step. rewrite fromBuffer_le_combine by (apply length_slice; lia).
  js_step. rewrite round_double_zero by apply le_combine_bound.
  rewrite Hst. unfold account_object, key_at.
  destruct (le_combine (Buffer.slice data 73 81) =? 0).
  - js_step. reflexivity.
  - js_step. rewrite PublicKey_new_fits by apply length_slice_le.
    js_step.
    destruct (TokenAmount.fromBuffer (Buffer.slice data 113 121)) as [a|e];
      js_step; reflexivity.
Qed.

Lemma tokenInfo_unfold (this : Token.t) :
  Token.tokenInfo this
  = (ai <- Connection.getAccountInfo (Token.connection this) (Token.token this) ;;
     tokenInfo_checks this ai).
Proof.
  unfold Token.tokenInfo, tokenInfo_checks, Buffer.from.
  destruct (Connection.getAccountInfo _ _) as [ai|e]; [cbn [bind]|reflexivity].
  destruct (PublicKey.equals (AccountInfo.owner ai) _); [cbn [negb]|reflexivity].
  set (data := AccountInfo.data ai).
  rewrite decode_TokenInfoLayout.
  destruct (nth_error data 0) as [x|]; [|reflexivity].
  destruct (nth_error data 9) as [d|] eqn:Hd; [|reflexivity].
  unfold token_fields. js_step.
  destruct (Z.eqb_spec (byte.unsigned x) 1) as [Hst|Hst]; [cbn [negb]|reflexivity].
  assert (Hlen : (9 < length data)%nat) by (apply nth_error_Some; congruence).
  rewrite fromBuffer_le_combine by (apply length_slice; lia).
  js_step. rewrite Hst. reflexivity.
Qed.

Lemma fromBuffer_bad_length (b : Buffer.t) :
  length b <> 8%nat ->
  TokenAmount.fromBuffer b
  = Throw (AssertionError
             ("Invalid buffer length: " ++ Number_toString10 (length b))%string).
Proof.
  intros Hlen. unfold TokenAmount.fromBuffer.
  destruct (Nat.eqb_spec (length b) 8); [contradiction|reflexivity].
Qed.

Lemma fromBuffer_Ok (b : Buffer.t) (a : TokenAmount.t) :
  TokenAmount.fromBuffer b = Ok a -> length b = 8%nat /\ a = le_combine b.
Proof.
  intros H. destruct (Nat.eq_dec (length b) 8) as [Hlen|Hlen].
  - rewrite fromBuffer_le_combine in H by assumption. split; congruence.
  - rewrite fromBuffer_bad_length in H by assumption. discriminate.
Qed.

(** ** The claims about amounts *)

(** C2. For every amount [v]: when [v < 2^64], [toBuffer()] returns a buffer
    of exactly 8 bytes, the big-endian magnitude byte-reversed and padded
    with zeros to 8 bytes (which is [v] written little-endian on 8 bytes);
    when [v >= 2^64], [toBuffer()] raises and truncates nothing. *)
Theorem C2_toBuffer_eight_bytes_or_raise (v : TokenAmount.t) :
  (0 <= v < 2 ^ 64 ->
   exists b,
     TokenAmount.toBuffer v = Ok b
     /\ length b = 8%nat
     /\ b = rev (BN.toArray v) ++ repeat Byte.x00 (8 - length (BN.toArray v))
     /\ b = le_split 8 v)
  /\ (2 ^ 64 <= v ->
      TokenAmount.toBuffer v = Throw (AssertionError "TokenAmount too large")).
Proof.
  split.
  - intros Hv. exists (le_split 8 v).
    split; [apply toBuffer_le_split; assumption|].
    split; [apply length_le_split|]. split; [|reflexivity].
    rewrite length_toArray. unfold BN.toArray.
    rewrite rev_involutive, toArray_loop_le_split, Z.abs_eq by lia.
    pose proof (byteLength_le v 8 Hv) as Hle.
    pose proof (byteLength_covers v ltac:(lia)) as Hcov.
    symmetry. apply le_split_pad; [lia|]. split; [lia|].
    eapply Z.lt_le_trans; [exact Hcov|]. apply Z.pow_le_mono_r; lia.
  - apply toBuffer_too_large.
Qed.

Lemma C2_toBuffer_eight_bytes_or_raise_witness :
  TokenAmount.toBuffer 456
  = Ok [Byte.xc8; Byte.x01; Byte.x00; Byte.x00; Byte.x00; Byte.x00; Byte.x00; Byte.x00]
  /\ TokenAmount.toBuffer (2 ^ 64) = Throw (AssertionError "TokenAmount too large").
Proof.
  split.
  - destruct (proj1 (C2_toBuffer_eight_bytes_or_raise 456) ltac:(lia))
      as (b & Hb & _ & _ & Hsplit).
    rewrite Hb, Hsplit. reflexivity.
  - apply (proj2 (C2_toBuffer_eight_bytes_or_raise (2 ^ 64))). lia.
Defined.

(** C7. [TokenAmount.fromBuffer] raises for every buffer whose length is not
    exactly 8 bytes, and for every buffer of 8 bytes it returns the magnitude
    the bytes spell little-endian. *)
Theorem C7_fromBuffer_length (b : Buffer.t) :
  (length b <> 8%nat ->
   TokenAmount.fromBuffer b
   = Throw (AssertionError
              ("Invalid buffer length: " ++ Number_toString10 (length b))%string))
  /\ (length b = 8%nat -> TokenAmount.fromBuffer b = Ok (le_combine b)).
Proof.
  split; [apply fromBuffer_bad_length|apply fromBuffer_le_combine].
Qed.

Lemma C7_fromBuffer_length_witness :
  TokenAmount.fromBuffer [Byte.x01; Byte.x02; Byte.x03]
  = Throw (AssertionError "Invalid buffer length: 3")
  /\ TokenAmount.fromBuffer
       [Byte.x7b; Byte.x00; Byte.x00; Byte.x00; Byte.x00; Byte.x00; Byte.x00; Byte.xff]
     = Ok (123 + 255 * 2 ^ 56).
Proof.
  split.
  - apply (proj1 (C7_fromBuffer_length [Byte.x01; Byte.x02; Byte.x03])).
    cbn; lia.
  - apply (proj2 (C7_fromBuffer_length
       [Byte.x7b; Byte.x00; Byte.x00; Byte.x00; Byte.x00; Byte.x00; Byte.x00; Byte.xff])).
    reflexivity.
Defined.

Example accountInfo_direct :
  Token.accountInfo (sample_token key_x11 direct_data) sample_account
  = Ok [ ("state", Num 2); ("token", Key key_x11); ("owner", Key key_x22);
         ("amount", Amount 10000); ("sourceOption", Num 0);
         ("source", Null); ("originalAmount", Amount 0) ].
Proof. vm_compute. reflexivity. Qed.

Example accountInfo_delegate :
  Token.accountInfo (sample_token key_x11 delegate_data) sample_account
  = Ok [ ("state", Num 2); ("token", Key key_x11); ("owner", Key key_x22);
         ("amount", Amount 10000); ("sourceOption", Num 1);
         ("source", Key key_x33); ("originalAmount", Amount 456) ].
Proof. vm_compute. reflexivity. Qed.

(** ** The claims about decoding accounts *)

(** C3. For every token-account buffer whose [sourceOption] field (the 8
    bytes at offset 73) is zero, an [accountInfo] that returns has [source]
    null and [originalAmount] zero.  Split the buffer into the 81 bytes up
    to the end of [sourceOption] and the trailing bytes: when the owner, the
    state and the token checks pass, [accountInfo] returns a record made
    from the first 81 bytes alone, whatever the trailing [source] and
    [originalAmount] bytes are. *)
Theorem C3_source_absent (this : Token.t) (account : PublicKey.t) (ai : AccountInfo.t) :
  Connection.getAccountInfo (Token.connection this) account = Ok ai ->
  le_combine (Buffer.slice (AccountInfo.data ai) 73 81) = 0 ->
  (forall info,
      Token.accountInfo this account = Ok info ->
      get_prop info "source" = Some Null
      /\ get_prop info "originalAmount" = Some (Amount 0))
  /\ (forall header trailing,
         AccountInfo.data ai = header ++ trailing ->
         length header = 81%nat ->
         PublicKey.equals (AccountInfo.owner ai) (Token.programId this) = true ->
         nth_error header 0 = Some Byte.x02 ->
         PublicKey.equals (key_at header 1 33) (Token.token this) = true ->
         Token.accountInfo this account = Ok (account_object header 2 Null 0)).
Proof.
  intros Hget Hzero. rewrite accountInfo_unfold, Hget. cbn [bind].
  unfold accountInfo_checks. rewrite Hzero. cbn [Z.eqb bind]. split.
  - intros info.
    destruct (negb (PublicKey.equals (AccountInfo.owner ai) _)); [discriminate|].
    destruct (nth_error (AccountInfo.data ai) 0) as [x|]; [|discriminate].
    destruct (length (AccountInfo.data ai) <? 81)%nat; [discriminate|].
    destruct (negb (byte.unsigned x =? 2)); [discriminate|].
    destruct (negb (PublicKey.equals (key_at _ 1 33) _)); [discriminate|].
    intros [= <-]. split; reflexivity.
  - intros header trailing Hdata Hlen Howner Hstate Htoken.
    rewrite Hdata, Howner, length_app, Hlen.
    rewrite nth_error_app1, Hstate by lia.
    destruct (Nat.ltb_spec (81 + length trailing) 81) as [|_]; [lia|].
    unfold account_object, key_at in *.
    rewrite !slice_prefix by lia. rewrite Htoken.
    rewrite Hdata, slice_prefix in Hzero by lia. rewrite Hzero. reflexivity.
Qed.

Lemma C3_source_absent_witness :
  Token.accountInfo (sample_token key_x11 direct_data) sample_account
  = Ok (account_object (firstn 81 direct_data) 2 Null 0).
Proof.
  apply (proj2 (C3_source_absent (sample_token key_x11 direct_data) sample_account
                  (sample_info direct_data) eq_refl eq_refl)
           (firstn 81 direct_data) (skipn 81 direct_data));
    reflexivity.
Defined.

(** C6. For every token-account buffer whose [sourceOption] field is not
    zero, an [accountInfo] that returns has as [source] the public key made
    of the 32 bytes at offset 81 and as [originalAmount] the amount the 8
    bytes at offset 113 spell; and it does return when the owner, the state
    and the token checks pass and the buffer holds all 121 bytes. *)
Theorem C6_source_present (this : Token.t) (account : PublicKey.t) (ai : AccountInfo.t) :
  Connection.getAccountInfo (Token.connection this) account = Ok ai ->
  le_combine (Buffer.slice (AccountInfo.data ai) 73 81) <> 0 ->
  (forall info,
      Token.accountInfo this account = Ok info ->
      get_prop info "source" = Some (Key (key_at (AccountInfo.data ai) 81 113))
      /\ get_prop info "originalAmount"
         = Some (Amount (le_combine (Buffer.slice (AccountInfo.data ai) 113 121))))
  /\ (PublicKey.equals (AccountInfo.owner ai) (Token.programId this) = true ->
      nth_error (AccountInfo.data ai) 0 = Some Byte.x02 ->
      (121 <= length (AccountInfo.data ai))%nat ->
      PublicKey.equals (key_at (AccountInfo.data ai) 1 33) (Token.token this) = true ->
      Token.accountInfo this account
      = Ok (account_object (AccountInfo.data ai) 2
              (Key (key_at (AccountInfo.data ai) 81 113))
              (le_combine (Buffer.slice (AccountInfo.data ai) 113 121)))).
Proof.
  intros Hget Hnz. rewrite accountInfo_unfold, Hget. cbn [bind].
  unfold accountInfo_checks. apply Z.eqb_neq in Hnz. rewrite Hnz. split.
  - intros info.
    destruct (negb (PublicKey.equals (AccountInfo.owner ai) _)); [discriminate|].
    destruct (nth_error (AccountInfo.data ai) 0) as [x|]; [|discriminate].
    destruct (length (AccountInfo.data ai) <? 81)%nat; [discriminate|].
    destruct (negb (byte.unsigned x =? 2)); [discriminate|].
    destruct (TokenAmount.fromBuffer _) as [a|e] eqn:Ha; [cbn [bind]|discriminate].
    apply fromBuffer_Ok in Ha. destruct Ha as [_ ->].
    destruct (negb (PublicKey.equals (key_at _ 1 33) _)); [discriminate|].
    intros [= <-]. split; reflexivity.
  - intros Howner Hstate Hlen Htoken. rewrite Howner, Hstate, Htoken.
    assert (Hlt : (length (AccountInfo.data ai) <? 81)%nat = false)
      by (apply Nat.ltb_ge; lia).
    rewrite Hlt, fromBuffer_le_combine by (apply length_slice; lia).
    reflexivity.
Qed.

Lemma C6_source_present_witness :
  Token.accountInfo (sample_token key_x11 delegate_data) sample_account
  = Ok (account_object delegate_data 2 (Key (key_at delegate_data 81 113))
          (le_combine (Buffer.slice delegate_data 113 121))).
Proof.
  apply (proj2 (C6_source_present (sample_token key_x11 delegate_data) sample_account
                  (sample_info delegate_data) eq_refl ltac:(discriminate)));
    [reflexivity|reflexivity|cbn; lia|reflexivity].
Defined.

(** C4. For every account whose data carries, in its token field (the 32
    bytes at offset 1), a public key different from the token of the [Token]
    object, [accountInfo] raises and returns no record; when the owner and
    the state checks pass and the buffer holds all 121 bytes, what it raises
    is the token mismatch error. *)
Theorem C4_token_cross_check (this : Token.t) (account : PublicKey.t) (ai : AccountInfo.t) :
  Connection.getAccountInfo (Token.connection this) account = Ok ai ->
  PublicKey.equals (key_at (AccountInfo.data ai) 1 33) (Token.token this) = false ->
  (exists e, Token.accountInfo this account = Throw e)
  /\ (PublicKey.equals (AccountInfo.owner ai) (Token.programId this) = true ->
      nth_error (AccountInfo.data ai) 0 = Some Byte.x02 ->
      (121 <= length (AccountInfo.data ai))%nat ->
      Token.accountInfo this account = Throw (Error "Invalid token account token")).
Proof.
  intros Hget Hdiff. rewrite accountInfo_unfold, Hget. cbn [bind].
  unfold accountInfo_checks. rewrite Hdiff. cbn [negb]. split.
  - destruct (negb (PublicKey.equals (AccountInfo.owner ai) _)); [eauto|].
    destruct (nth_error (AccountInfo.data ai) 0) as [x|]; [|eauto].
    destruct (length (AccountInfo.data ai) <? 81)%nat; [eauto|].
    destruct (negb (byte.unsigned x =? 2)); [eauto|].
    destruct (le_combine _ =? 0); [cbn [bind]; eauto|].
    destruct (TokenAmount.fromBuffer _) as [a|e]; cbn [bind]; eauto.
  - intros Howner Hstate Hlen. rewrite Howner, Hstate.
    assert (Hlt : (length (AccountInfo.data ai) <? 81)%nat = false)
      by (apply Nat.ltb_ge; lia).
    rewrite Hlt, fromBuffer_le_combine by (apply length_slice; lia).
    cbn [negb Z.eqb byte.unsigned]. destruct (le_combine _ =? 0); reflexivity.
Qed.

Lemma C4_token_cross_check_witness :
  Token.accountInfo (sample_token key_x33 delegate_data) sample_account
  = Throw (Error "Invalid token account token").
Proof.
  apply (proj2 (C4_token_cross_check (sample_token key_x33 delegate_data) sample_account
                  (sample_info delegate_data) eq_refl eq_refl));
    [reflexivity|reflexivity|cbn; lia].
Defined.

(** C5. [tokenInfo] raises, and returns no record, whenever the state byte of
    the token data is not 1; [accountInfo] raises, and returns no record,
    whenever the state byte of the account data is not 2.  A buffer with no
    state byte at all is among them. *)
Theorem C5_state_sentinel (this : Token.t) :
  (forall ai,
      Connection.getAccountInfo (Token.connection this) (Token.token this) = Ok ai ->
      nth_error (AccountInfo.data ai) 0 <> Some Byte.x01 ->
      exists e, Token.tokenInfo this = Throw e)
  /\ (forall account ai,
         Connection.getAccountInfo (Token.connection this) account = Ok ai ->
         nth_error (AccountInfo.data ai) 0 <> Some Byte.x02 ->
         exists e, Token.accountInfo this account = Throw e).
Proof.
  split.
  - intros ai Hget Hstate. rewrite tokenInfo_unfold, Hget. cbn [bind].
    unfold tokenInfo_checks.
    destruct (negb (PublicKey.equals (AccountInfo.owner ai) _)); [eauto|].
    destruct (nth_error (AccountInfo.data ai) 0) as [x|]; [|eauto].
    destruct (nth_error (AccountInfo.data ai) 9) as [d|]; [|eauto].
    destruct (Z.eqb_spec (byte.unsigned x) 1) as [Hx|Hx]; [exfalso|cbn [negb]; eauto].
    apply Hstate. f_equal. apply byte.unsigned_inj. exact Hx.
  - intros account ai Hget Hstate. rewrite accountInfo_unfold, Hget. cbn [bind].
    unfold accountInfo_checks.
    destruct (negb (PublicKey.equals (AccountInfo.owner ai) _)); [eauto|].
    destruct (nth_error (AccountInfo.data ai) 0) as [x|]; [|eauto].
    destruct (length (AccountInfo.data ai) <? 81)%nat; [eauto|].
    destruct (Z.eqb_spec (byte.unsigned x) 2) as [Hx|Hx]; [exfalso|cbn [negb]; eauto].
    apply Hstate. f_equal. apply byte.unsigned_inj. exact Hx.
Qed.

(** With the owner check passed and the whole layout present, the error of a
    wrong state byte is the one of lines 353 and 374. *)
Lemma tokenInfo_wrong_state (this : Token.t) (ai : AccountInfo.t) (x : byte) :
  Connection.getAccountInfo (Token.connection this) (Token.token this) = Ok ai ->
  PublicKey.equals (AccountInfo.owner ai) (Token.programId this) = true ->
  (10 <= length (AccountInfo.data ai))%nat ->
  nth_error (AccountInfo.data ai) 0 = Some x -> x <> Byte.x01 ->
  Token.tokenInfo this = Throw (Error "Invalid token account data").
Proof.
  intros Hget Howner Hlen Hx Hne. rewrite tokenInfo_unfold, Hget. cbn [bind].
  unfold tokenInfo_checks. rewrite Howner, Hx. cbn [negb].
  destruct (nth_error (AccountInfo.data ai) 9) as [d|] eqn:Hd.
  - destruct (Z.eqb_spec (byte.unsigned x) 1) as [H1|H1]; [|reflexivity].
    exfalso. apply Hne. apply byte.unsigned_inj. exact H1.
  - apply nth_error_None in Hd. lia.
Qed.

Lemma accountInfo_wrong_state (this : Token.t) (account : PublicKey.t)
    (ai : AccountInfo.t) (x : byte) :
  Connection.getAccountInfo (Token.connection this) account = Ok ai ->
  PublicKey.equals (AccountInfo.owner ai) (Token.programId this) = true ->
  (81 <= length (AccountInfo.data ai))%nat ->
  nth_error (AccountInfo.data ai) 0 = Some x -> x <> Byte.x02 ->
  Token.accountInfo this account = Throw (Error "Invalid token account data").
Proof.
  intros Hget Howner Hlen Hx Hne. rewrite accountInfo_unfold, Hget. cbn [bind].
  unfold accountInfo_checks. rewrite Howner, Hx. cbn [negb].
  apply Nat.ltb_ge in Hlen. rewrite Hlen.
  destruct (Z.eqb_spec (byte.unsigned x) 2) as [H2|H2]; [|reflexivity].
  exfalso. apply Hne. apply byte.unsigned_inj. exact H2.
Qed.

Example tokenInfo_sample :
  Token.tokenInfo (sample_token key_x11 (sample_token_data Byte.x01))
  = Ok [ ("state", Num 1); ("supply", Amount 10000); ("decimals", Num 2) ].
Proof. vm_compute. reflexivity. Qed.

Lemma C5_state_sentinel_witness :
  (exists e, Token.tokenInfo (sample_token key_x11 (sample_token_data Byte.x02)) = Throw e)
  /\ (exists e,
         Token.accountInfo (sample_token key_x11 (sample_data Byte.x01 (repeat Byte.x00 8)))
           sample_account = Throw e).
Proof.
  split.
  - apply (proj1 (C5_state_sentinel (sample_token key_x11 (sample_token_data Byte.x02)))
             (sample_info (sample_token_data Byte.x02)) eq_refl).
    discriminate.
  - apply (proj2 (C5_state_sentinel
                    (sample_token key_x11 (sample_data Byte.x01 (repeat Byte.x00 8))))
             sample_account
             (sample_info (sample_data Byte.x01 (repeat Byte.x00 8))) eq_refl).
    discriminate.
Defined.

(** ** Encoding instruction payloads *)

Lemma length_8_inv {A : Type} (l : list A) :
  length l = 8%nat ->
  exists a0 a1 a2 a3 a4 a5 a6 a7, l = [a0; a1; a2; a3; a4; a5; a6; a7].
Proof.
  intros H.
  destruct l as [|a0 [|a1 [|a2 [|a3 [|a4 [|a5 [|a6 [|a7 [|a8 l]]]]]]]]];
    try discriminate H.
  do 8 eexists. reflexivity.
Qed.


(** A one-byte tag followed by an 8-byte amount, encoded into a fresh buffer
    of the layout's span. *)
Lemma encode_tag_amount (tag : Z) (amount_buffer : Buffer.t) :
  0 <= tag <= 255 -> length amount_buffer = 8%nat ->
  BufferLayout.struct_encode
    [ BufferLayout.u8 "instruction"; Layout.uint64 "amount" ]
    [ ("instruction", Num tag); ("amount", Buf amount_buffer) ]
    (Buffer.alloc
       (BufferLayout.struct_span
          [ BufferLayout.u8 "instruction"; Layout.uint64 "amount" ]))
  = Ok (byte.of_Z tag :: amount_buffer, 9%nat).
Proof.
  intros Htag Hlen.
  destruct (length_8_inv _ Hlen) as (a0 & a1 & a2 & a3 & a4 & a5 & a6 & a7 & ->).
  unfold BufferLayout.struct_encode, Layout.uint64.
  cbn [BufferLayout.struct_encode_loop BufferLayout.property BufferLayout.span
       get_prop String.eqb Ascii.eqb Bool.eqb BufferLayout.encode].
  unfold Buffer.writeUInt8.
  assert (Hr : (0 <=? tag) && (tag <=? 255) = true) by (apply andb_true_intro; lia).
  rewrite Hr. reflexivity.
Qed.

(** A tag alone. *)
Lemma encode_tag (tag : Z) :
  0 <= tag <= 255 ->
  BufferLayout.struct_encode [ BufferLayout.u8 "instruction" ]
    [ ("instruction", Num tag) ]
    (Buffer.alloc (BufferLayout.struct_span [ BufferLayout.u8 "instruction" ]))
  = Ok ([byte.of_Z tag], 1%nat).
Proof.
  intros Htag.
  unfold BufferLayout.struct_encode.
  cbn [BufferLayout.struct_encode_loop BufferLayout.property BufferLayout.span
       get_prop String.eqb Ascii.eqb Bool.eqb BufferLayout.encode].
  unfold Buffer.writeUInt8.
  assert (Hr : (0 <=? tag) && (tag <=? 255) = true) by (apply andb_true_intro; lia).
  rewrite Hr. reflexivity.
Qed.




Lemma encode_u8_fits (p : string) (n : Z) (b : Buffer.t) (offset : nat) :
  0 <= n <= 255 -> (offset < length b)%nat ->
  BufferLayout.encode (BufferLayout.u8 p) (Num n) b offset
  = Ok (Buffer.write b [byte.of_Z n] offset, 1%nat).
Proof.
  intros Hn Hfit. cbn [BufferLayout.encode]. unfold Buffer.writeUInt8.
  destruct (Z.leb_spec 0 n); [|lia]. destruct (Z.leb_spec n 255); [|lia].
  destruct (Nat.ltb_spec offset (length b)); [|lia]. reflexivity.
Qed.








Example createNewToken_data_sample :
  Token.createNewToken_data 10000 2
  = Ok [ Byte.x00;
         Byte.x10; Byte.x27; Byte.x00; Byte.x00; Byte.x00; Byte.x00; Byte.x00; Byte.x00;
         Byte.x02; Byte.x00; Byte.x00; Byte.x00; Byte.x00; Byte.x00; Byte.x00; Byte.x00 ].
Proof. vm_compute. reflexivity. Qed.

(** *** The amount of a Transfer or Approve payload *)

Lemma byteLength_abs (v : Z) : BN.byteLength (Z.abs v) = BN.byteLength v.
Proof.
  unfold BN.byteLength, BN.bitLength. rewrite Z.abs_idemp.
  replace (Z.abs v =? 0) with (v =? 0) by (destruct v; reflexivity).
  reflexivity.
Qed.

(** [BN.prototype.toBuffer()] gives 8 bytes exactly for the magnitudes of 8
    significant bytes. *)
Lemma length_BN_toBuffer (v : Z) :
  length (BN.toBuffer v) = 8%nat <-> 2 ^ 56 <= Z.abs v < 2 ^ 64.
Proof.
  unfold BN.toBuffer, Buffer.from. rewrite length_toArray, <- byteLength_abs.
  pose proof (Z.abs_nonneg v) as Hnn. split.
  - intros Hlen. split.
    + destruct (Z.lt_ge_cases (Z.abs v) (2 ^ 56)) as [Hlt|]; [exfalso|assumption].
      pose proof (byteLength_le (Z.abs v) 7 (conj Hnn Hlt)). lia.
    + destruct (Z.lt_ge_cases (Z.abs v) (2 ^ 64)) as [|Hge]; [assumption|exfalso].
      pose proof (byteLength_gt (Z.abs v) 8 Hge). lia.
  - intros [Hlo Hhi].
    pose proof (byteLength_le (Z.abs v) 8 (conj Hnn Hhi)).
    pose proof (byteLength_gt (Z.abs v) 7 Hlo). lia.
Qed.

Lemma BN_toBuffer_bytes (v : Z) :
  2 ^ 56 <= Z.abs v < 2 ^ 64 -> BN.toBuffer v = rev (le_split 8 (Z.abs v)).
Proof.
  intros Hv. pose proof (proj2 (length_BN_toBuffer v) Hv) as Hlen.
  unfold BN.toBuffer, Buffer.from in *. rewrite length_toArray in Hlen.
  unfold BN.toArray. rewrite Hlen, toArray_loop_le_split. reflexivity.
Qed.

(** The encoder of the 8-byte field refuses a buffer of another length. *)
Lemma encode_tag_amount_bad_length (tag : Z) (amount_buffer : Buffer.t) :
  0 <= tag <= 255 -> length amount_buffer <> 8%nat ->
  BufferLayout.struct_encode
    [ BufferLayout.u8 "instruction"; Layout.uint64 "amount" ]
    [ ("instruction", Num tag); ("amount", Buf amount_buffer) ]
    (Buffer.alloc
       (BufferLayout.struct_span
          [ BufferLayout.u8 "instruction"; Layout.uint64 "amount" ]))
  = Throw TypeError.
Proof.
  intros Htag Hlen.
  unfold BufferLayout.struct_encode, Layout.uint64.
  cbn [BufferLayout.struct_encode_loop BufferLayout.property BufferLayout.span
       get_prop String.eqb Ascii.eqb Bool.eqb].
  rewrite encode_u8_fits by (try exact Htag; cbn; lia). cbn [bind].
  cbn [BufferLayout.encode].
  destruct (Nat.eqb_spec 8 (length amount_buffer)) as [Heq|_]; [congruence|].
  reflexivity.
Qed.

(** Lines 517 and 564 with the encoding around them: the object made from
    the amount, its [toBuffer()], and the two fields written. *)
Lemma amount_block {A : Type} (tag : Z) (amount : TokenAmount.arg)
    (k : Buffer.t * nat -> result A) :
  0 <= tag <= 255 ->
  (amount_object <- TokenAmount.new amount ;;
   amount_buffer <- TokenAmount.call_toBuffer amount_object ;;
   x <- BufferLayout.struct_encode
          [ BufferLayout.u8 "instruction"; Layout.uint64 "amount" ]
          [ ("instruction", Num tag); ("amount", Buf amount_buffer) ]
          (Buffer.alloc
             (BufferLayout.struct_span
                [ BufferLayout.u8 "instruction"; Layout.uint64 "amount" ])) ;;
   k x)
  = if encodable amount
    then k (byte.of_Z tag :: amount_bytes amount, 9%nat)
    else Throw (amount_error amount).
Proof.
  intros Htag.
  destruct amount as [n|a|a];
    cbn [TokenAmount.new encodable amount_bytes amount_error].
  - destruct (Z.ltb_spec (Z.abs n) (2 ^ 53)) as [Hlt|Hge]; [|reflexivity].
    cbn [bind TokenAmount.call_toBuffer].
    rewrite toBuffer_abs, toBuffer_le_split by lia. cbn [bind].
    rewrite encode_tag_amount by (try apply length_le_split; lia). reflexivity.
  - cbn [bind TokenAmount.call_toBuffer]. rewrite toBuffer_abs.
    destruct (Z.ltb_spec (Z.abs a) (2 ^ 64)) as [Hlt|Hge].
    + rewrite toBuffer_le_split by lia. cbn [bind].
      rewrite encode_tag_amount by (try apply length_le_split; lia). reflexivity.
    + rewrite toBuffer_too_large by assumption. reflexivity.
  - cbn [bind TokenAmount.call_toBuffer].
    destruct (Z.leb_spec (2 ^ 56) (Z.abs a)) as [Hlo|Hlo];
      destruct (Z.ltb_spec (Z.abs a) (2 ^ 64)) as [Hhi|Hhi]; cbn [andb].
    + rewrite BN_toBuffer_bytes by lia.
      rewrite encode_tag_amount
        by (rewrite ?length_rev; try apply length_le_split; lia).
      reflexivity.
    + rewrite encode_tag_amount_bad_length;
        [reflexivity|lia|rewrite length_BN_toBuffer; lia].
    + rewrite encode_tag_amount_bad_length;
        [reflexivity|lia|rewrite length_BN_toBuffer; lia].
    + rewrite encode_tag_amount_bad_length;
        [reflexivity|lia|rewrite length_BN_toBuffer; lia].
Qed.

Lemma length_amount_bytes (amount : TokenAmount.arg) :
  length (amount_bytes amount) = 8%nat.
Proof.
  destruct amount; cbn [amount_bytes]; rewrite ?length_rev; apply length_le_split.
Qed.

(** What [approveInstruction] does, for every amount. *)
Lemma approveInstruction_cases (this : Token.t) (owner account delegate : PublicKey.t)
    (amount : TokenAmount.arg) :
  Token.approveInstruction this owner account delegate amount
  = if encodable amount
    then Ok {| TransactionInstruction.keys := owner_and_two owner account delegate;
               TransactionInstruction.programId := Token.programId this;
               TransactionInstruction.data := Byte.x03 :: amount_bytes amount |}
    else Throw (amount_error amount).
Proof.
  unfold Token.approveInstruction. cbv zeta.
  rewrite amount_block by lia. reflexivity.
Qed.

(** What [transferInstruction] does after reading the source account, for
    every amount. *)
Lemma transferInstruction_cases (this : Token.t) (owner source destination : PublicKey.t)
    (amount : TokenAmount.arg) :
  Token.transferInstruction this owner source destination amount
  = (accountInfo <- Token.accountInfo this source ;;
     accountInfo_owner <- as_key (get_prop accountInfo "owner") ;;
     if negb (PublicKey.equals owner accountInfo_owner)
     then Throw (Error "Account owner mismatch")
     else if encodable amount
     then Ok {| TransactionInstruction.keys :=
                  owner_and_two owner source destination
                  ++ match get_prop accountInfo "source" with
                     | Some (Key accountInfo_source) =>
                         [ {| AccountMeta.pubkey := accountInfo_source;
                              AccountMeta.isSigner := false;
                              AccountMeta.isWritable := true |} ]
                     | _ => []
                     end;
                TransactionInstruction.programId := Token.programId this;
                TransactionInstruction.data := Byte.x02 :: amount_bytes amount |}
     else Throw (amount_error amount)).
Proof.
  unfold Token.transferInstruction.
  destruct (Token.accountInfo this source) as [info|e]; [cbn [bind]|reflexivity].
  destruct (as_key (get_prop info "owner")) as [k|e]; [cbn [bind]|reflexivity].
  destruct (negb (PublicKey.equals owner k)); [reflexivity|]. cbv zeta.
  rewrite amount_block by lia.
  destruct (encodable amount); [|reflexivity].
  unfold owner_and_two.
  destruct (get_prop info "source") as [[n|b|s|a|]|]; rewrite ?app_nil_r; reflexivity.
Qed.

(** [transferInstruction] on a source account that [accountInfo] accepts
    (its first 121 bytes are there, its state byte is 2, it is of this program
    and of this token) and whose owner key is [owner]. *)
Lemma transferInstruction_accepted (this : Token.t)
    (owner source destination : PublicKey.t) (amount : TokenAmount.arg)
    (ai : AccountInfo.t) :
  Connection.getAccountInfo (Token.connection this) source = Ok ai ->
  PublicKey.equals (AccountInfo.owner ai) (Token.programId this) = true ->
  nth_error (AccountInfo.data ai) 0 = Some Byte.x02 ->
  (121 <= length (AccountInfo.data ai))%nat ->
  PublicKey.equals (key_at (AccountInfo.data ai) 1 33) (Token.token this) = true ->
  PublicKey.equals owner (key_at (AccountInfo.data ai) 33 65) = true ->
  Token.transferInstruction this owner source destination amount
  = if encodable amount
    then Ok {| TransactionInstruction.keys :=
                 owner_and_two owner source destination
                 ++ (if le_combine (Buffer.slice (AccountInfo.data ai) 73 81) =? 0
                     then []
                     else [ {| AccountMeta.pubkey := key_at (AccountInfo.data ai) 81 113;
                               AccountMeta.isSigner := false;
                               AccountMeta.isWritable := true |} ]);
               TransactionInstruction.programId := Token.programId this;
               TransactionInstruction.data := Byte.x02 :: amount_bytes amount |}
    else Throw (amount_error amount).
Proof.
  intros Hget Hprog Hstate Hlen Htoken Howner.
  rewrite transferInstruction_cases.
  rewrite accountInfo_unfold, Hget. cbn [bind]. unfold accountInfo_checks.
  rewrite Hprog, Hstate, Htoken. cbn [negb].
  destruct (Nat.ltb_spec (length (AccountInfo.data ai)) 81); [lia|].
  change (byte.unsigned Byte.x02 =? 2) with true. cbn [negb].
  rewrite fromBuffer_le_combine by (apply length_slice; lia).
  destruct (le_combine (Buffer.slice (AccountInfo.data ai) 73 81) =? 0);
    unfold account_object; js_step; rewrite Howner; cbn [negb]; reflexivity.
Qed.

Lemma setOwnerInstruction_bytes (this : Token.t) (owner account newOwner : PublicKey.t) :
  Token.setOwnerInstruction this owner account newOwner
  = Ok {| TransactionInstruction.keys := owner_and_two owner account newOwner;
          TransactionInstruction.programId := Token.programId this;
          TransactionInstruction.data := [Byte.x04] |}.
Proof.
  unfold Token.setOwnerInstruction. rewrite encode_tag by lia. reflexivity.
Qed.

Example transferInstruction_sample :
  Token.transferInstruction (sample_token key_x11 delegate_data)
    key_x22 sample_account key_x33 (TokenAmount.OfNumber 123)
  = Ok {| TransactionInstruction.keys :=
            owner_and_two key_x22 sample_account key_x33
            ++ [ {| AccountMeta.pubkey := key_x33;
                    AccountMeta.isSigner := false; AccountMeta.isWritable := true |} ];
          TransactionInstruction.programId := sample_programId;
          TransactionInstruction.data :=
            [ Byte.x02; Byte.x7b; Byte.x00; Byte.x00; Byte.x00; Byte.x00; Byte.x00;
              Byte.x00; Byte.x00 ] |}.
Proof. vm_compute. reflexivity. Qed.



(** C10. [revoke(owner, account, delegate)] is [approve(owner, account,
    delegate, 0)], and [revokeInstruction] builds the instruction that
    [approveInstruction] builds for the amount 0: the tag byte 3, eight zero
    bytes, and the same three keys.  What [revoke] sends is that one
    instruction, under the title of [approve]. *)
Theorem C10_revoke_is_approve_zero (Signature : Type)
    (sendAndConfirmTransaction :
       string -> Connection.t -> Transaction.t -> list Account.t -> result Signature)
    (this : Token.t) (owner : Account.t) (account delegate : PublicKey.t) :
  Token.revoke Signature sendAndConfirmTransaction this owner account delegate
  = Token.approve Signature sendAndConfirmTransaction this owner account delegate
      (TokenAmount.OfNumber 0)
  /\ Token.revokeInstruction this (Account.publicKey owner) account delegate
     = Token.approveInstruction this (Account.publicKey owner) account delegate
         (TokenAmount.OfNumber 0)
  /\ Token.revokeInstruction this (Account.publicKey owner) account delegate
     = Ok (zero_approval this (Account.publicKey owner) account delegate)
  /\ Token.revoke Signature sendAndConfirmTransaction this owner account delegate
     = (_ <- sendAndConfirmTransaction "approve" (Token.connection this)
               [zero_approval this (Account.publicKey owner) account delegate]
               [owner] ;;
        Ok tt).
Proof.
  assert (Hins : Token.approveInstruction this (Account.publicKey owner) account delegate
                   (TokenAmount.OfNumber 0)
                 = Ok (zero_approval this (Account.publicKey owner) account delegate))
    by (rewrite approveInstruction_cases; reflexivity).
  split; [reflexivity|]. split; [reflexivity|]. split; [exact Hins|].
  unfold Token.revoke, Token.approve. rewrite Hins. reflexivity.
Qed.

(** ** The confirmation loop *)

Lemma pending_all_null (getSignatureStatus : string -> N -> Confirmation.SignatureStatus)
    (pollInterval : positive) (budget : N) (signature : string) (elapsed : N) :
  (forall t, elapsed <= t -> t <= budget + N.pos pollInterval ->
             getSignatureStatus signature t = Confirmation.StatusNull)%N ->
  (elapsed <= budget + N.pos pollInterval)%N ->
  Confirmation.pending getSignatureStatus pollInterval budget signature elapsed
  = Confirmation.TimedOut.
Proof.
  intros Hnull Hle.
  funelim (Confirmation.pending getSignatureStatus pollInterval budget signature elapsed).
  all: try (rewrite Hnull in Heq by lia; discriminate).
  - match goal with IH : _ -> _ -> Confirmation.pending _ _ _ _ _ = _ |- _ => apply IH end;
      [intros; apply Hnull; lia|lia].
  - reflexivity.
Qed.

(** C9. For every run of the confirmation loop in which the transaction was
    sent and every status query answers null until the elapsed-time budget
    of the polling is exceeded, the outcome is [TimedOut]; it is neither a
    [Failed] nor a [Confirmed] outcome. *)
Theorem C9_timeout_is_distinct (sendTransaction : nat -> option string)
    (getSignatureStatus : string -> N -> Confirmation.SignatureStatus)
    (sendRetries : nat) (pollInterval : positive) (budget : N) (signature : string) :
  Confirmation.submitting sendTransaction sendRetries 0 = Some signature ->
  (forall t, t <= budget + N.pos pollInterval ->
             getSignatureStatus signature t = Confirmation.StatusNull)%N ->
  Confirmation.sendAndConfirmTransaction sendTransaction getSignatureStatus
    sendRetries pollInterval budget = Confirmation.TimedOut
  /\ (forall reason,
         Confirmation.sendAndConfirmTransaction sendTransaction getSignatureStatus
           sendRetries pollInterval budget <> Confirmation.Failed reason)
  /\ (forall confirmed,
         Confirmation.sendAndConfirmTransaction sendTransaction getSignatureStatus
           sendRetries pollInterval budget <> Confirmation.Confirmed confirmed).
Proof.
  intros Hsent Hnull.
  assert (Hout : Confirmation.sendAndConfirmTransaction sendTransaction getSignatureStatus
                   sendRetries pollInterval budget = Confirmation.TimedOut).
  { unfold Confirmation.sendAndConfirmTransaction. rewrite Hsent.
    apply pending_all_null; [intros; apply Hnull; assumption|lia]. }
  rewrite Hout. split; [reflexivity|]. split; intros; discriminate.
Qed.

Lemma C9_timeout_is_distinct_witness :
  Confirmation.sendAndConfirmTransaction
    (fun attempt => if (attempt <? 2)%nat then None else Some "sig")
    (fun _ _ => Confirmation.StatusNull) 3 500%positive 30000%N
  = Confirmation.TimedOut.
Proof.
  apply (C9_timeout_is_distinct
           (fun attempt => if (attempt <? 2)%nat then None else Some "sig")
           (fun _ _ => Confirmation.StatusNull) 3 500%positive 30000%N "sig").
  - reflexivity.
  - intros; reflexivity.
Defined.

Example confirmed_on_first_poll :
  Confirmation.sendAndConfirmTransaction (fun _ => Some "sig") (fun _ _ => Confirmation.StatusOk)
    3 500%positive 30000%N
  = Confirmation.Confirmed "sig".
Proof. reflexivity. Qed.

Example failed_on_chain :
  Confirmation.sendAndConfirmTransaction (fun _ => Some "sig")
    (fun _ t => if (t <? 1000)%N then Confirmation.StatusNull
                else Confirmation.StatusErr "insufficient allowance")
    3 500%positive 30000%N
  = Confirmation.Failed (Confirmation.OnChainError "insufficient allowance").
Proof. reflexivity. Qed.

Example failed_transport :
  Confirmation.sendAndConfirmTransaction (fun _ => None) (fun _ _ => Confirmation.StatusOk)
    3 500%positive 30000%N
  = Confirmation.Failed Confirmation.TransportError.
Proof. reflexivity. Qed.

(** * Further properties of the code *)

(** ** Amounts *)



(** X2. An amount that [fromBuffer] returns is never negative and always
    below [2^64]. *)
Theorem fromBuffer_range (b : Buffer.t) (v : TokenAmount.t) :
  TokenAmount.fromBuffer b = Ok v -> 0 <= v < 2 ^ 64.
Proof.
  intros H. apply fromBuffer_Ok in H. destruct H as [Hlen ->].
  pose proof (le_combine_bound b) as Hb. rewrite Hlen in Hb. exact Hb.
Qed.

Lemma fromBuffer_range_witness : 0 <= 2 ^ 64 - 1 < 2 ^ 64.
Proof.
  apply (fromBuffer_range (repeat Byte.xff 8) (2 ^ 64 - 1)). reflexivity.
Defined.

(** X3. Two different amounts below [2^64] never share an encoding. *)
Theorem toBuffer_injective (v w : TokenAmount.t) :
  0 <= v < 2 ^ 64 -> 0 <= w < 2 ^ 64 ->
  TokenAmount.toBuffer v = TokenAmount.toBuffer w -> v = w.
Proof.
  intros Hv Hw H. rewrite !toBuffer_le_split in H by assumption.
  apply (f_equal (fun r => match r with Ok l => le_combine l | Throw _ => 0 end)) in H.
  cbv beta iota in H. rewrite !le_combine_split in H. change (2 ^ (Z.of_nat 8 * 8)) with (2 ^ 64) in H.
  rewrite !Z.mod_small in H by lia. exact H.
Qed.

Lemma toBuffer_injective_witness : 5 = 5.
Proof. apply (toBuffer_injective 5 5); [lia|lia|reflexivity]. Defined.

(** X4. [toBuffer] drops the sign: a negative amount is encoded as its
    magnitude, and raises exactly when the magnitude does. *)
Theorem toBuffer_drops_sign (v : TokenAmount.t) :
  TokenAmount.toBuffer (- v) = TokenAmount.toBuffer v.
Proof.
  rewrite (toBuffer_abs (- v)), (toBuffer_abs v), Z.abs_opp. reflexivity.
Qed.

(** X5. What [approveInstruction] does with a value [n] from [2^53] up to
    [2^64] depends on how it is given.  As a number it is refused by the
    constructor before anything is encoded.  As a [TokenAmount] it is
    encoded, little-endian.  As a plain [BN], which is how [accountInfo] and
    [tokenInfo] hand out the amounts they read, it is refused by the encoder
    of the 8-byte field below [2^56], where [toBuffer()] has 7 bytes, and is
    encoded with the bytes in the reverse, big-endian order from [2^56]
    on. *)
Theorem approveInstruction_number_limit (this : Token.t)
    (owner account delegate : PublicKey.t) (n : Z) :
  2 ^ 53 <= n < 2 ^ 64 ->
  Token.approveInstruction this owner account delegate (TokenAmount.OfNumber n)
  = Throw (Error "Assertion failed")
  /\ Token.approveInstruction this owner account delegate (TokenAmount.OfAmount n)
     = Ok {| TransactionInstruction.keys := owner_and_two owner account delegate;
             TransactionInstruction.programId := Token.programId this;
             TransactionInstruction.data := Byte.x03 :: le_split 8 n |}
  /\ Token.approveInstruction this owner account delegate (TokenAmount.OfBN n)
     = if 2 ^ 56 <=? n
       then Ok {| TransactionInstruction.keys := owner_and_two owner account delegate;
                  TransactionInstruction.programId := Token.programId this;
                  TransactionInstruction.data := Byte.x03 :: rev (le_split 8 n) |}
       else Throw TypeError.
Proof.
  intros Hn. rewrite !approveInstruction_cases.
  cbn [encodable amount_bytes amount_error]. rewrite Z.abs_eq by lia.
  destruct (Z.ltb_spec n (2 ^ 53)); [lia|].
  destruct (Z.ltb_spec n (2 ^ 64)); [|lia].
  split; [reflexivity|]. split; [reflexivity|].
  destruct (2 ^ 56 <=? n); reflexivity.
Qed.

Lemma approveInstruction_number_limit_witness :
  Token.approveInstruction (sample_token key_x11 direct_data) key_x22 key_x11 key_x33
    (TokenAmount.OfNumber (2 ^ 53))
  = Throw (Error "Assertion failed")
  /\ Token.approveInstruction (sample_token key_x11 direct_data) key_x22 key_x11 key_x33
       (TokenAmount.OfAmount (2 ^ 53))
     = Ok {| TransactionInstruction.keys := owner_and_two key_x22 key_x11 key_x33;
             TransactionInstruction.programId := sample_programId;
             TransactionInstruction.data :=
               [ Byte.x03; Byte.x00; Byte.x00; Byte.x00; Byte.x00; Byte.x00;
                 Byte.x00; Byte.x20; Byte.x00 ] |}
  /\ Token.approveInstruction (sample_token key_x11 direct_data) key_x22 key_x11 key_x33
       (TokenAmount.OfBN (2 ^ 53))
     = Throw TypeError.
Proof.
  apply (approveInstruction_number_limit (sample_token key_x11 direct_data)
           key_x22 key_x11 key_x33 (2 ^ 53)).
  lia.
Defined.

(** ** [tokenInfo] *)

(** X6. [tokenInfo] reads the first 10 bytes of the token's data and nothing
    after them: with the owner check passed and the state byte 1, it returns
    the supply the bytes 1..8 spell little-endian and the decimals of byte
    9, whatever follows. *)
Theorem tokenInfo_returns (this : Token.t) (ai : AccountInfo.t)
    (header trailing : list byte) (d : byte) :
  Connection.getAccountInfo (Token.connection this) (Token.token this) = Ok ai ->
  PublicKey.equals (AccountInfo.owner ai) (Token.programId this) = true ->
  AccountInfo.data ai = header ++ trailing ->
  length header = 10%nat ->
  nth_error header 0 = Some Byte.x01 ->
  nth_error header 9 = Some d ->
  Token.tokenInfo this
  = Ok [ ("state", Num 1);
         ("supply", Amount (le_combine (Buffer.slice header 1 9)));
         ("decimals", Num (byte.unsigned d)) ].
Proof.
  intros Hget Howner Hdata Hlen Hstate Hdec.
  rewrite tokenInfo_unfold, Hget. cbn [bind]. unfold tokenInfo_checks.
  rewrite Howner, Hdata. cbn [negb].
  rewrite !nth_error_app1 by lia. rewrite Hstate, Hdec.
  rewrite slice_prefix by lia. reflexivity.
Qed.

Lemma tokenInfo_returns_witness :
  Token.tokenInfo
    (sample_token key_x11 (sample_token_data Byte.x01 ++ [Byte.x54; Byte.x45]))
  = Ok [ ("state", Num 1);
         ("supply", Amount (le_combine (Buffer.slice (sample_token_data Byte.x01) 1 9)));
         ("decimals", Num (byte.unsigned Byte.x02)) ].
Proof.
  apply (tokenInfo_returns
           (sample_token key_x11 (sample_token_data Byte.x01 ++ [Byte.x54; Byte.x45]))
           (sample_info (sample_token_data Byte.x01 ++ [Byte.x54; Byte.x45]))
           (sample_token_data Byte.x01) [Byte.x54; Byte.x45] Byte.x02);
    reflexivity.
Defined.

(** X7. [tokenInfo] returns a record only for an account of the token
    program that holds at least 10 bytes and starts with the state byte 1;
    the supply of the record is below [2^64]. *)
Theorem tokenInfo_returns_only_if (this : Token.t) (info : object) :
  Token.tokenInfo this = Ok info ->
  exists ai,
    Connection.getAccountInfo (Token.connection this) (Token.token this) = Ok ai
    /\ PublicKey.equals (AccountInfo.owner ai) (Token.programId this) = true
    /\ (10 <= length (AccountInfo.data ai))%nat
    /\ nth_error (AccountInfo.data ai) 0 = Some Byte.x01
    /\ exists supply,
         get_prop info "supply" = Some (Amount supply) /\ 0 <= supply < 2 ^ 64.
Proof.
  rewrite tokenInfo_unfold.
  destruct (Connection.getAccountInfo _ _) as [ai|e] eqn:Hget; [cbn [bind]|discriminate].
  unfold tokenInfo_checks.
  destruct (PublicKey.equals (AccountInfo.owner ai) _) eqn:Howner; [cbn [negb]|discriminate].
  destruct (nth_error (AccountInfo.data ai) 0) as [x|] eqn:Hx; [|discriminate].
  destruct (nth_error (AccountInfo.data ai) 9) as [d|] eqn:Hd; [|discriminate].
  destruct (Z.eqb_spec (byte.unsigned x) 1) as [Hst|Hst]; [cbn [negb]|discriminate].
  intros [= <-]. exists ai. split; [reflexivity|]. split; [exact Howner|].
  assert (Hlen : (9 < length (AccountInfo.data ai))%nat)
    by (apply nth_error_Some; congruence).
  split; [lia|]. split.
  - rewrite Hx. f_equal. apply byte.unsigned_inj. exact Hst.
  - eexists. split; [reflexivity|].
    pose proof (le_combine_bound (Buffer.slice (AccountInfo.data ai) 1 9)) as Hb.
    rewrite length_slice in Hb by lia. exact Hb.
Qed.

Lemma tokenInfo_returns_only_if_witness :
  exists ai,
    Connection.getAccountInfo
      (Token.connection (sample_token key_x11 (sample_token_data Byte.x01)))
      (Token.token (sample_token key_x11 (sample_token_data Byte.x01))) = Ok ai
    /\ PublicKey.equals (AccountInfo.owner ai)
         (Token.programId (sample_token key_x11 (sample_token_data Byte.x01))) = true
    /\ (10 <= length (AccountInfo.data ai))%nat
    /\ nth_error (AccountInfo.data ai) 0 = Some Byte.x01
    /\ exists supply,
         get_prop [ ("state", Num 1); ("supply", Amount 10000); ("decimals", Num 2) ]
           "supply" = Some (Amount supply)
         /\ 0 <= supply < 2 ^ 64.
Proof.
  apply (tokenInfo_returns_only_if (sample_token key_x11 (sample_token_data Byte.x01))).
  vm_compute. reflexivity.
Defined.

(** X8. The owner check of [tokenInfo] comes first: for an account that
    another program owns it raises the owner error whatever the data are,
    and for an account of the token program with fewer than 10 bytes it
    raises the range error of the decoder. *)
Theorem tokenInfo_rejects (this : Token.t) (ai : AccountInfo.t) :
  Connection.getAccountInfo (Token.connection this) (Token.token this) = Ok ai ->
  (PublicKey.equals (AccountInfo.owner ai) (Token.programId this) = false ->
   Token.tokenInfo this = Throw (Error "Invalid token owner"))
  /\ (PublicKey.equals (AccountInfo.owner ai) (Token.programId this) = true ->
      (length (AccountInfo.data ai) < 10)%nat ->
      Token.tokenInfo this = Throw RangeError).
Proof.
  intros Hget. rewrite tokenInfo_unfold, Hget. cbn [bind]. unfold tokenInfo_checks.
  split.
  - intros ->. reflexivity.
  - intros -> Hlen. cbn [negb].
    destruct (nth_error (AccountInfo.data ai) 0); [|reflexivity].
    destruct (nth_error (AccountInfo.data ai) 9) eqn:Hd; [|reflexivity].
    assert ((9 < length (AccountInfo.data ai))%nat)
      by (apply nth_error_Some; congruence).
    lia.
Qed.

Lemma tokenInfo_rejects_witness :
  Token.tokenInfo (sample_token key_x11 [Byte.x01; Byte.x10; Byte.x27]) = Throw RangeError.
Proof.
  apply (proj2 (tokenInfo_rejects (sample_token key_x11 [Byte.x01; Byte.x10; Byte.x27])
                  (sample_info [Byte.x01; Byte.x10; Byte.x27]) eq_refl));
    [reflexivity|cbn; lia].
Defined.

(** ** [accountInfo] *)

(** The two ways [accountInfo] returns. *)
Lemma accountInfo_Ok_cases (this : Token.t) (account : PublicKey.t) (info : object) :
  Token.accountInfo this account = Ok info ->
  exists ai,
    Connection.getAccountInfo (Token.connection this) account = Ok ai
    /\ PublicKey.equals (AccountInfo.owner ai) (Token.programId this) = true
    /\ nth_error (AccountInfo.data ai) 0 = Some Byte.x02
    /\ (81 <= length (AccountInfo.data ai))%nat
    /\ PublicKey.equals (key_at (AccountInfo.data ai) 1 33) (Token.token this) = true
    /\ ((le_combine (Buffer.slice (AccountInfo.data ai) 73 81) = 0
         /\ info = account_object (AccountInfo.data ai) 2 Null 0)
        \/ (le_combine (Buffer.slice (AccountInfo.data ai) 73 81) <> 0
            /\ (121 <= length (AccountInfo.data ai))%nat
            /\ info = account_object (AccountInfo.data ai) 2
                        (Key (key_at (AccountInfo.data ai) 81 113))
                        (le_combine (Buffer.slice (AccountInfo.data ai) 113 121)))).
Proof.
  rewrite accountInfo_unfold.
  destruct (Connection.getAccountInfo _ _) as [ai|e] eqn:Hget; [cbn [bind]|discriminate].
  unfold accountInfo_checks.
  destruct (PublicKey.equals (AccountInfo.owner ai) _) eqn:Howner; [cbn [negb]|discriminate].
  destruct (nth_error (AccountInfo.data ai) 0) as [x|] eqn:Hx; [|discriminate].
  destruct (Nat.ltb_spec (length (AccountInfo.data ai)) 81) as [|Hlen]; [discriminate|].
  destruct (Z.eqb_spec (byte.unsigned x) 2) as [Hst|Hst]; [cbn [negb]|discriminate].
  intros H. exists ai. split; [reflexivity|]. split; [exact Howner|].
  split; [rewrite Hx; f_equal; apply byte.unsigned_inj; exact Hst|].
  split; [exact Hlen|].
  destruct (Z.eqb_spec (le_combine (Buffer.slice (AccountInfo.data ai) 73 81)) 0)
    as [Hso|Hso]; cbn [bind] in H.
  - destruct (PublicKey.equals (key_at _ 1 33) _); [cbn [negb] in H|discriminate].
    injection H as <-. split; [reflexivity|]. left. split; [exact Hso|reflexivity].
  - destruct (TokenAmount.fromBuffer _) as [a|e] eqn:Ha; [cbn [bind] in H|discriminate].
    apply fromBuffer_Ok in Ha. destruct Ha as [Hl ->].
    destruct (PublicKey.equals (key_at _ 1 33) _); [cbn [negb] in H|discriminate].
    injection H as <-. split; [reflexivity|]. right. split; [exact Hso|].
    split; [|reflexivity].
    unfold Buffer.slice in Hl. rewrite length_firstn, length_skipn in Hl. lia.
Qed.

(** X9. The owner check of [accountInfo] comes first: for an account that
    another program owns it raises the owner error whatever the data are,
    and for an account of the token program with fewer than 81 bytes (the
    end of the [sourceOption] field) it raises the range error of the
    decoder, whatever the state byte is. *)
Theorem accountInfo_rejects (this : Token.t) (account : PublicKey.t) (ai : AccountInfo.t) :
  Connection.getAccountInfo (Token.connection this) account = Ok ai ->
  (PublicKey.equals (AccountInfo.owner ai) (Token.programId this) = false ->
   Token.accountInfo this account = Throw (Error "Invalid token account owner"))
  /\ (PublicKey.equals (AccountInfo.owner ai) (Token.programId this) = true ->
      (length (AccountInfo.data ai) < 81)%nat ->
      Token.accountInfo this account = Throw RangeError).
Proof.
  intros Hget. rewrite accountInfo_unfold, Hget. cbn [bind]. unfold accountInfo_checks.
  split.
  - intros ->. reflexivity.
  - intros -> Hlen. cbn [negb].
    destruct (nth_error (AccountInfo.data ai) 0); [|reflexivity].
    apply Nat.ltb_lt in Hlen. rewrite Hlen. reflexivity.
Qed.

Lemma accountInfo_rejects_witness :
  Token.accountInfo (sample_token key_x11 (firstn 80 direct_data)) sample_account
  = Throw RangeError.
Proof.
  apply (proj2 (accountInfo_rejects (sample_token key_x11 (firstn 80 direct_data))
                  sample_account (sample_info (firstn 80 direct_data)) eq_refl));
    [reflexivity|cbn; lia].
Defined.

(** X10. A delegate account cut short: with the owner and the state checks
    passed, a nonzero [sourceOption] and at least 81 but fewer than 121
    bytes, [accountInfo] raises the length assertion of
    [TokenAmount.fromBuffer] on what is left of the [originalAmount] field,
    before it compares the token. *)
Theorem accountInfo_truncated_delegate (this : Token.t) (account : PublicKey.t)
    (ai : AccountInfo.t) :
  Connection.getAccountInfo (Token.connection this) account = Ok ai ->
  PublicKey.equals (AccountInfo.owner ai) (Token.programId this) = true ->
  nth_error (AccountInfo.data ai) 0 = Some Byte.x02 ->
  (81 <= length (AccountInfo.data ai) < 121)%nat ->
  le_combine (Buffer.slice (AccountInfo.data ai) 73 81) <> 0 ->
  Token.accountInfo this account
  = Throw (AssertionError
             ("Invalid buffer length: "
              ++ Number_toString10 (length (AccountInfo.data ai) - 113))%string).
Proof.
  intros Hget Howner Hstate Hlen Hso.
  rewrite accountInfo_unfold, Hget. cbn [bind]. unfold accountInfo_checks.
  rewrite Howner, Hstate. cbn [negb].
  destruct (Nat.ltb_spec (length (AccountInfo.data ai)) 81); [lia|].
  apply Z.eqb_neq in Hso. rewrite Hso. cbn [Z.eqb byte.unsigned negb].
  assert (Hl : length (Buffer.slice (AccountInfo.data ai) 113 121)
               = (length (AccountInfo.data ai) - 113)%nat).
  { unfold Buffer.slice. rewrite length_firstn, length_skipn. lia. }
  rewrite fromBuffer_bad_length by (rewrite Hl; lia).
  rewrite Hl. reflexivity.
Qed.

Lemma accountInfo_truncated_delegate_witness :
  Token.accountInfo (sample_token key_x11 (firstn 116 delegate_data)) sample_account
  = Throw (AssertionError "Invalid buffer length: 3").
Proof.
  apply (accountInfo_truncated_delegate (sample_token key_x11 (firstn 116 delegate_data))
           sample_account (sample_info (firstn 116 delegate_data)));
    try reflexivity; [cbn; lia|discriminate].
Defined.

(** X11. [accountInfo] returns a record only for an account of the token
    program whose data start with the state byte 2 and carry the token of
    the [Token] object; the record has state 2, that token, the owner key of
    bytes 33..64 and the amount of bytes 65..72. *)
Theorem accountInfo_returns_only_if (this : Token.t) (account : PublicKey.t)
    (info : object) :
  Token.accountInfo this account = Ok info ->
  exists ai,
    Connection.getAccountInfo (Token.connection this) account = Ok ai
    /\ PublicKey.equals (AccountInfo.owner ai) (Token.programId this) = true
    /\ nth_error (AccountInfo.data ai) 0 = Some Byte.x02
    /\ get_prop info "state" = Some (Num 2)
    /\ get_prop info "token" = Some (Key (key_at (AccountInfo.data ai) 1 33))
    /\ PublicKey.equals (key_at (AccountInfo.data ai) 1 33) (Token.token this) = true
    /\ get_prop info "owner" = Some (Key (key_at (AccountInfo.data ai) 33 65))
    /\ get_prop info "amount"
       = Some (Amount (le_combine (Buffer.slice (AccountInfo.data ai) 65 73))).
Proof.
  intros H. apply accountInfo_Ok_cases in H.
  destruct H as (ai & Hget & Howner & Hstate & Hlen & Htoken & Hcases).
  exists ai. repeat (split; [assumption|]).
  destruct Hcases as [[_ ->]|(_ & _ & ->)]; repeat split; try reflexivity; assumption.
Qed.

Lemma accountInfo_returns_only_if_witness :
  exists ai,
    Connection.getAccountInfo (Token.connection (sample_token key_x11 direct_data))
      sample_account = Ok ai
    /\ PublicKey.equals (AccountInfo.owner ai)
         (Token.programId (sample_token key_x11 direct_data)) = true
    /\ nth_error (AccountInfo.data ai) 0 = Some Byte.x02
    /\ get_prop (account_object direct_data 2 Null 0) "state" = Some (Num 2)
    /\ get_prop (account_object direct_data 2 Null 0) "token"
       = Some (Key (key_at (AccountInfo.data ai) 1 33))
    /\ PublicKey.equals (key_at (AccountInfo.data ai) 1 33)
         (Token.token (sample_token key_x11 direct_data)) = true
    /\ get_prop (account_object direct_data 2 Null 0) "owner"
       = Some (Key (key_at (AccountInfo.data ai) 33 65))
    /\ get_prop (account_object direct_data 2 Null 0) "amount"
       = Some (Amount (le_combine (Buffer.slice (AccountInfo.data ai) 65 73))).
Proof.
  apply (accountInfo_returns_only_if (sample_token key_x11 direct_data) sample_account).
  vm_compute. reflexivity.
Defined.

(** X12. The invariant that the comment of [TokenAccountInfo] states: in
    every record [accountInfo] returns, either [source] is null and
    [originalAmount] is zero, or [source] is a key and [originalAmount] an
    amount below [2^64]. *)
Theorem accountInfo_source_invariant (this : Token.t) (account : PublicKey.t)
    (info : object) :
  Token.accountInfo this account = Ok info ->
  (get_prop info "source" = Some Null
   /\ get_prop info "originalAmount" = Some (Amount 0))
  \/ (exists k a,
         get_prop info "source" = Some (Key k)
         /\ get_prop info "originalAmount" = Some (Amount a)
         /\ 0 <= a < 2 ^ 64).
Proof.
  intros H. apply accountInfo_Ok_cases in H.
  destruct H as (ai & _ & _ & _ & _ & _ & [[_ ->]|(_ & Hlen & ->)]).
  - left. split; reflexivity.
  - right. do 2 eexists. split; [reflexivity|]. split; [reflexivity|].
    pose proof (le_combine_bound (Buffer.slice (AccountInfo.data ai) 113 121)) as Hb.
    rewrite length_slice in Hb by lia. exact Hb.
Qed.

Lemma accountInfo_source_invariant_witness :
  (get_prop (account_object delegate_data 2 (Key key_x33) 456) "source" = Some Null
   /\ get_prop (account_object delegate_data 2 (Key key_x33) 456) "originalAmount"
      = Some (Amount 0))
  \/ (exists k a,
         get_prop (account_object delegate_data 2 (Key key_x33) 456) "source"
         = Some (Key k)
         /\ get_prop (account_object delegate_data 2 (Key key_x33) 456) "originalAmount"
            = Some (Amount a)
         /\ 0 <= a < 2 ^ 64).
Proof.
  apply (accountInfo_source_invariant (sample_token key_x11 delegate_data) sample_account).
  vm_compute. reflexivity.
Defined.

(** ** [transferInstruction] *)

(** X13. For a source account that [accountInfo] accepts and whose owner
    key is [owner], the amount alone decides what [transferInstruction]
    does.  For a number below [2^53], a [TokenAmount] below [2^64] and a
    plain [BN] of 8 significant bytes it builds the instruction with the
    payload of the amount and the keys owner (signer), source and
    destination (written); when the source is a delegate account, the account
    it draws on is appended as a fourth, written key.  For every other amount
    it raises: in particular the encoder's [TypeError] for a plain [BN] below
    [2^56], such as the balance that [accountInfo] returns for the same
    account. *)
Theorem transferInstruction_returns (this : Token.t)
    (owner source destination : PublicKey.t) (amount : TokenAmount.arg)
    (ai : AccountInfo.t) :
  Connection.getAccountInfo (Token.connection this) source = Ok ai ->
  PublicKey.equals (AccountInfo.owner ai) (Token.programId this) = true ->
  nth_error (AccountInfo.data ai) 0 = Some Byte.x02 ->
  (121 <= length (AccountInfo.data ai))%nat ->
  PublicKey.equals (key_at (AccountInfo.data ai) 1 33) (Token.token this) = true ->
  PublicKey.equals owner (key_at (AccountInfo.data ai) 33 65) = true ->
  Token.transferInstruction this owner source destination amount
  = if encodable amount
    then Ok {| TransactionInstruction.keys :=
                 owner_and_two owner source destination
                 ++ (if le_combine (Buffer.slice (AccountInfo.data ai) 73 81) =? 0
                     then []
                     else [ {| AccountMeta.pubkey := key_at (AccountInfo.data ai) 81 113;
                               AccountMeta.isSigner := false;
                               AccountMeta.isWritable := true |} ]);
               TransactionInstruction.programId := Token.programId this;
               TransactionInstruction.data := Byte.x02 :: amount_bytes amount |}
    else Throw (amount_error amount).
Proof. exact (transferInstruction_accepted this owner source destination amount ai). Qed.

Lemma transferInstruction_returns_witness :
  Token.transferInstruction (sample_token key_x11 delegate_data)
    key_x22 sample_account key_x11 (TokenAmount.OfNumber 123)
  = Ok {| TransactionInstruction.keys :=
            owner_and_two key_x22 sample_account key_x11
            ++ [ {| AccountMeta.pubkey := key_at delegate_data 81 113;
                    AccountMeta.isSigner := false;
                    AccountMeta.isWritable := true |} ];
          TransactionInstruction.programId := sample_programId;
          TransactionInstruction.data := Byte.x02 :: le_split 8 123 |}
  /\ Token.transferInstruction (sample_token key_x11 delegate_data)
       key_x22 sample_account key_x11 (TokenAmount.OfBN 10000)
     = Throw TypeError.
Proof.
  split.
  - apply (transferInstruction_returns (sample_token key_x11 delegate_data)
             key_x22 sample_account key_x11 (TokenAmount.OfNumber 123)
             (sample_info delegate_data));
      try reflexivity; cbn; lia.
  - apply (transferInstruction_returns (sample_token key_x11 delegate_data)
             key_x22 sample_account key_x11 (TokenAmount.OfBN 10000)
             (sample_info delegate_data));
      try reflexivity; cbn; lia.
Defined.

(** X14. [transferInstruction] returns an instruction only if the source
    account passes [accountInfo] for this token and [owner] is the owner key
    stored in it; the instruction is for the token program and has three
    keys for a direct account and four for a delegate account. *)
Theorem transferInstruction_returns_only_if (this : Token.t)
    (owner source destination : PublicKey.t) (amount : TokenAmount.arg)
    (ins : TransactionInstruction.t) :
  Token.transferInstruction this owner source destination amount = Ok ins ->
  exists ai,
    Connection.getAccountInfo (Token.connection this) source = Ok ai
    /\ PublicKey.equals (key_at (AccountInfo.data ai) 1 33) (Token.token this) = true
    /\ PublicKey.equals owner (key_at (AccountInfo.data ai) 33 65) = true
    /\ TransactionInstruction.programId ins = Token.programId this
    /\ ((le_combine (Buffer.slice (AccountInfo.data ai) 73 81) = 0
         /\ TransactionInstruction.keys ins = owner_and_two owner source destination)
        \/ (le_combine (Buffer.slice (AccountInfo.data ai) 73 81) <> 0
            /\ TransactionInstruction.keys ins
               = owner_and_two owner source destination
                 ++ [ {| AccountMeta.pubkey := key_at (AccountInfo.data ai) 81 113;
                         AccountMeta.isSigner := false;
                         AccountMeta.isWritable := true |} ])).
Proof.
  rewrite transferInstruction_cases.
  destruct (Token.accountInfo this source) as [info|e] eqn:Hinfo;
    [cbn [bind]|discriminate].
  apply accountInfo_Ok_cases in Hinfo.
  destruct Hinfo as (ai & Hget & _ & _ & _ & Htoken & Hcases).
  intros H. exists ai. split; [exact Hget|]. split; [exact Htoken|].
  destruct Hcases as [[Hso ->]|(Hso & _ & ->)]; unfold account_object in H;
    revert H; js_step;
    (destruct (PublicKey.equals owner (key_at (AccountInfo.data ai) 33 65)) eqn:Howner;
     [cbn [negb]|discriminate]);
    (destruct (encodable amount); [|discriminate]);
    rewrite ?app_nil_r;
    intros [= <-]; (split; [reflexivity|]); (split; [reflexivity|]).
  - left. split; [exact Hso|reflexivity].
  - right. split; [exact Hso|reflexivity].
Qed.

Lemma transferInstruction_returns_only_if_witness :
  exists ai,
    Connection.getAccountInfo (Token.connection (sample_token key_x11 direct_data))
      sample_account = Ok ai
    /\ PublicKey.equals (key_at (AccountInfo.data ai) 1 33)
         (Token.token (sample_token key_x11 direct_data)) = true
    /\ PublicKey.equals key_x22 (key_at (AccountInfo.data ai) 33 65) = true
    /\ sample_programId = Token.programId (sample_token key_x11 direct_data)
    /\ ((le_combine (Buffer.slice (AccountInfo.data ai) 73 81) = 0
         /\ owner_and_two key_x22 sample_account key_x33
            = owner_and_two key_x22 sample_account key_x33)
        \/ (le_combine (Buffer.slice (AccountInfo.data ai) 73 81) <> 0
            /\ owner_and_two key_x22 sample_account key_x33
               = owner_and_two key_x22 sample_account key_x33
                 ++ [ {| AccountMeta.pubkey := key_at (AccountInfo.data ai) 81 113;
                         AccountMeta.isSigner := false;
                         AccountMeta.isWritable := true |} ])).
Proof.
  apply (transferInstruction_returns_only_if (sample_token key_x11 direct_data)
           key_x22 sample_account key_x33 (TokenAmount.OfNumber 7)
           {| TransactionInstruction.keys := owner_and_two key_x22 sample_account key_x33;
              TransactionInstruction.programId := sample_programId;
              TransactionInstruction.data := Byte.x02 :: le_split 8 7 |}).
  vm_compute. reflexivity.
Defined.

(** ** Payloads read back *)


Lemma read_tag_amount_bytes (t : byte) (amount_buffer : Buffer.t) :
  length amount_buffer = 8%nat ->
  read_tag_amount (t :: amount_buffer)
  = Ok (Some (Num (byte.unsigned t)), le_combine amount_buffer).
Proof.
  intros Hlen. unfold read_tag_amount, BufferLayout.struct_decode, Layout.uint64.
  cbn [BufferLayout.struct_decode_loop BufferLayout.span BufferLayout.property
       BufferLayout.decode Buffer.readUInt8 nth_error bind Nat.add].
  js_step. unfold Buffer.slice. cbn [Nat.sub skipn].
  rewrite firstn_all2 by lia.
  rewrite fromBuffer_le_combine by assumption. reflexivity.
Qed.

(** X15. The payload of every instruction that [approveInstruction] or
    [transferInstruction] returns reads back, with the layout that wrote
    it, as the tag of the kind (3 or 2) and an amount.  The amount read is
    the magnitude of the amount given when that is a number or a
    [TokenAmount]; when it is a plain [BN], the amount read is the one whose
    8 bytes are those of the magnitude in reverse order, which is the
    magnitude only when its 8 bytes read the same in both directions. *)
Theorem tag_amount_payload_round_trip (this : Token.t) (k1 k2 k3 : PublicKey.t)
    (amount : TokenAmount.arg) (ins : TransactionInstruction.t) :
  (Token.approveInstruction this k1 k2 k3 amount = Ok ins ->
   read_tag_amount (TransactionInstruction.data ins)
   = Ok (Some (Num 3), amount_read amount))
  /\ (Token.transferInstruction this k1 k2 k3 amount = Ok ins ->
      read_tag_amount (TransactionInstruction.data ins)
      = Ok (Some (Num 2), amount_read amount))
  /\ (forall v,
         amount = TokenAmount.OfBN v -> Z.abs v < 2 ^ 64 ->
         (amount_read amount = Z.abs v
          <-> rev (le_split 8 (Z.abs v)) = le_split 8 (Z.abs v))).
Proof.
  assert (Hread : forall t : byte, encodable amount = true ->
            read_tag_amount (t :: amount_bytes amount)
            = Ok (Some (Num (byte.unsigned t)), amount_read amount)).
  { intros t Henc. rewrite read_tag_amount_bytes by apply length_amount_bytes.
    destruct amount as [n|a|a]; cbn [amount_bytes amount_read encodable] in *;
      [| |reflexivity].
    - apply Z.ltb_lt in Henc.
      rewrite le_combine_split. change (2 ^ (Z.of_nat 8 * 8)) with (2 ^ 64).
      rewrite Z.mod_small by lia. reflexivity.
    - apply Z.ltb_lt in Henc.
      rewrite le_combine_split. change (2 ^ (Z.of_nat 8 * 8)) with (2 ^ 64).
      rewrite Z.mod_small by lia. reflexivity. }
  split; [|split].
  - rewrite approveInstruction_cases.
    destruct (encodable amount); [|discriminate].
    intros [= <-]. apply (Hread Byte.x03). reflexivity.
  - rewrite transferInstruction_cases.
    destruct (Token.accountInfo this k2) as [info|e]; [cbn [bind]|discriminate].
    destruct (as_key (get_prop info "owner")) as [k|e]; [cbn [bind]|discriminate].
    destruct (negb (PublicKey.equals k1 k)); [discriminate|].
    destruct (encodable amount); [|discriminate].
    intros [= <-]. apply (Hread Byte.x02). reflexivity.
  - intros v -> Hv. cbn [amount_read].
    pose proof (le_combine_split 8 (Z.abs v)) as HS.
    change (2 ^ (Z.of_nat 8 * 8)) with (2 ^ 64) in HS.
    rewrite Z.mod_small in HS by lia.
    split.
    + intros H. apply le_combine_inj.
      * rewrite length_rev. reflexivity.
      * rewrite H, HS. reflexivity.
    + intros ->. exact HS.
Qed.

Lemma tag_amount_payload_round_trip_witness :
  read_tag_amount
    (TransactionInstruction.data
       {| TransactionInstruction.keys := owner_and_two key_x22 key_x11 key_x33;
          TransactionInstruction.programId := sample_programId;
          TransactionInstruction.data :=
            [ Byte.x03; Byte.x01; Byte.x00; Byte.x00; Byte.x00; Byte.x00; Byte.x00;
              Byte.x00; Byte.x00 ] |})
  = Ok (Some (Num 3), 1).
Proof.
  apply (proj1 (tag_amount_payload_round_trip (sample_token key_x11 direct_data)
                  key_x22 key_x11 key_x33 (TokenAmount.OfBN (2 ^ 56))
                  {| TransactionInstruction.keys := owner_and_two key_x22 key_x11 key_x33;
                     TransactionInstruction.programId := sample_programId;
                     TransactionInstruction.data :=
                       [ Byte.x03; Byte.x01; Byte.x00; Byte.x00; Byte.x00; Byte.x00;
                         Byte.x00; Byte.x00; Byte.x00 ] |})).
  vm_compute. reflexivity.
Defined.



(** ** The methods that send *)

Section Senders.

Variable Signature : Type.
Variable sendAndConfirmTransaction :
  string -> Connection.t -> Transaction.t -> list Account.t -> result Signature.
Variable getMinimumBalanceForRentExemption : Connection.t -> nat -> result Z.
Variable createAccount : SystemProgram.CreateAccountParams -> Transaction.t.

Lemma newAccount_unfold (this : Token.t) (owner : Account.t)
    (source : option PublicKey.t) (tokenAccount : Account.t) :
  Token.newAccount Signature sendAndConfirmTransaction
    getMinimumBalanceForRentExemption createAccount this owner source tokenAccount
  = newAccount_sends Signature sendAndConfirmTransaction
      getMinimumBalanceForRentExemption createAccount this owner source tokenAccount.
Proof.
  unfold Token.newAccount, newAccount_sends, Token.getMinBalanceRentForExemptTokenAccount.
  change Token.newAccount_data with (@Ok Buffer.t [Byte.x01]). cbn [bind].
  change (BufferLayout.struct_span TokenAccountInfoLayout) with 121%nat.
  destruct source; reflexivity.
Qed.


End Senders.

(** X17. [newAccount] returns only the key of the account it made, and only
    after the rent of 121 bytes was answered, the allocation of 121 bytes
    for the token program was confirmed and the initialization was
    confirmed: one instruction with the payload [1] and the keys new
    account (signer, written), owner, token, and the source when there is
    one. *)
Theorem newAccount_returns_only_if (Signature : Type)
    (sendAndConfirmTransaction :
       string -> Connection.t -> Transaction.t -> list Account.t -> result Signature)
    (getMinimumBalanceForRentExemption : Connection.t -> nat -> result Z)
    (createAccount : SystemProgram.CreateAccountParams -> Transaction.t)
    (this : Token.t) (owner : Account.t) (source : option PublicKey.t)
    (tokenAccount : Account.t) (pk : PublicKey.t) :
  Token.newAccount Signature sendAndConfirmTransaction
    getMinimumBalanceForRentExemption createAccount this owner source tokenAccount
  = Ok pk ->
  pk = Account.publicKey tokenAccount
  /\ exists balanceNeeded s1 s2,
       getMinimumBalanceForRentExemption (Token.connection this) 121%nat
       = Ok balanceNeeded
       /\ sendAndConfirmTransaction "createAccount" (Token.connection this)
            (createAccount (newAccount_allocation this owner tokenAccount balanceNeeded))
            [owner; tokenAccount] = Ok s1
       /\ sendAndConfirmTransaction "init tokenAccount" (Token.connection this)
            [newAccount_instruction this owner source tokenAccount]
            [owner; tokenAccount] = Ok s2.
Proof.
  rewrite newAccount_unfold. unfold newAccount_sends.
  destruct (getMinimumBalanceForRentExemption _ _) as [balanceNeeded|e];
    [cbn [bind]|discriminate].
  destruct (sendAndConfirmTransaction "createAccount" _ _ _) as [s1|e] eqn:H1;
    [cbn [bind]|discriminate].
  destruct (sendAndConfirmTransaction "init tokenAccount" _ _ _) as [s2|e] eqn:H2;
    [cbn [bind]|discriminate].
  intros [= <-]. split; [reflexivity|].
  exists balanceNeeded, s1, s2. repeat split; assumption.
Qed.

Lemma newAccount_returns_only_if_witness :
  key_x33 = Account.publicKey sample_new_account
  /\ exists balanceNeeded s1 s2,
       sample_rent (Token.connection (sample_token key_x11 direct_data)) 121%nat
       = Ok balanceNeeded
       /\ sample_send "createAccount" (Token.connection (sample_token key_x11 direct_data))
            (sample_createAccount
               (newAccount_allocation (sample_token key_x11 direct_data)
                  sample_owner sample_new_account balanceNeeded))
            [sample_owner; sample_new_account] = Ok s1
       /\ sample_send "init tokenAccount"
            (Token.connection (sample_token key_x11 direct_data))
            [newAccount_instruction (sample_token key_x11 direct_data)
               sample_owner (Some sample_account) sample_new_account]
            [sample_owner; sample_new_account] = Ok s2.
Proof.
  apply (newAccount_returns_only_if string sample_send sample_rent sample_createAccount
           (sample_token key_x11 direct_data) sample_owner (Some sample_account)
           sample_new_account key_x33).
  reflexivity.
Defined.

(** X18. [newAccount] stops at the first failure: a failed rent query is
    its error; with the rent answered, a rejected allocation is its error
    whatever the initialization would have answered; with the allocation
    confirmed, a rejected initialization is its error. *)
Theorem newAccount_first_failure (Signature : Type)
    (sendAndConfirmTransaction :
       string -> Connection.t -> Transaction.t -> list Account.t -> result Signature)
    (getMinimumBalanceForRentExemption : Connection.t -> nat -> result Z)
    (createAccount : SystemProgram.CreateAccountParams -> Transaction.t)
    (this : Token.t) (owner : Account.t) (source : option PublicKey.t)
    (tokenAccount : Account.t) (e : exn) :
  (getMinimumBalanceForRentExemption (Token.connection this) 121%nat = Throw e ->
   Token.newAccount Signature sendAndConfirmTransaction
     getMinimumBalanceForRentExemption createAccount this owner source tokenAccount
   = Throw e)
  /\ (forall balanceNeeded,
         getMinimumBalanceForRentExemption (Token.connection this) 121%nat
         = Ok balanceNeeded ->
         sendAndConfirmTransaction "createAccount" (Token.connection this)
           (createAccount (newAccount_allocation this owner tokenAccount balanceNeeded))
           [owner; tokenAccount] = Throw e ->
         Token.newAccount Signature sendAndConfirmTransaction
           getMinimumBalanceForRentExemption createAccount this owner source tokenAccount
         = Throw e)
  /\ (forall balanceNeeded s1,
         getMinimumBalanceForRentExemption (Token.connection this) 121%nat
         = Ok balanceNeeded ->
         sendAndConfirmTransaction "createAccount" (Token.connection this)
           (createAccount (newAccount_allocation this owner tokenAccount balanceNeeded))
           [owner; tokenAccount] = Ok s1 ->
         sendAndConfirmTransaction "init tokenAccount" (Token.connection this)
           [newAccount_instruction this owner source tokenAccount]
           [owner; tokenAccount] = Throw e ->
         Token.newAccount Signature sendAndConfirmTransaction
           getMinimumBalanceForRentExemption createAccount this owner source tokenAccount
         = Throw e).
Proof.
  rewrite newAccount_unfold. unfold newAccount_sends. repeat split.
  - intros ->. reflexivity.
  - intros balanceNeeded -> H1. cbn [bind]. rewrite H1. reflexivity.
  - intros balanceNeeded s1 -> H1 H2. cbn [bind]. rewrite H1. cbn [bind].
    rewrite H2. reflexivity.
Qed.

Lemma newAccount_first_failure_witness :
  Token.newAccount string (sample_send_rejecting "createAccount")
    sample_rent sample_createAccount
    (sample_token key_x11 direct_data) sample_owner None sample_new_account
  = Throw (Error "rejected").
Proof.
  apply (proj1 (proj2 (newAccount_first_failure string
                         (sample_send_rejecting "createAccount")
                         sample_rent sample_createAccount
                         (sample_token key_x11 direct_data) sample_owner None
                         sample_new_account (Error "rejected")))
           847);
    reflexivity.
Defined.








(** X22. [transfer] sends nothing for an account of another owner: when the
    source account passes [accountInfo] and the key of [owner] is not the
    owner key stored in it, [transfer] raises the owner mismatch whatever the
    network would answer and whatever the amount is. *)
Theorem transfer_owner_mismatch (Signature : Type)
    (sendAndConfirmTransaction :
       string -> Connection.t -> Transaction.t -> list Account.t -> result Signature)
    (this : Token.t) (owner : Account.t) (source destination : PublicKey.t)
    (amount : TokenAmount.arg) (info : object) (ai : AccountInfo.t) :
  Connection.getAccountInfo (Token.connection this) source = Ok ai ->
  Token.accountInfo this source = Ok info ->
  PublicKey.equals (Account.publicKey owner) (key_at (AccountInfo.data ai) 33 65) = false ->
  Token.transfer Signature sendAndConfirmTransaction this owner source destination amount
  = Throw (Error "Account owner mismatch").
Proof.
  intros Hget Hinfo Howner. unfold Token.transfer, Token.transferInstruction.
  rewrite Hinfo. cbn [bind].
  apply accountInfo_Ok_cases in Hinfo.
  destruct Hinfo as (ai' & Hget' & _ & _ & _ & _ & Hcases).
  rewrite Hget in Hget'. injection Hget' as <-.
  destruct Hcases as [[_ ->]|(_ & _ & ->)]; unfold account_object; js_step;
    rewrite Howner; reflexivity.
Qed.

Lemma transfer_owner_mismatch_witness :
  Token.transfer string sample_send (sample_token key_x11 direct_data)
    sample_new_account sample_account key_x11 (TokenAmount.OfNumber 1)
  = Throw (Error "Account owner mismatch").
Proof.
  apply (transfer_owner_mismatch string sample_send (sample_token key_x11 direct_data)
           sample_new_account sample_account key_x11 (TokenAmount.OfNumber 1)
           (account_object direct_data 2 Null 0) (sample_info direct_data));
    [reflexivity|vm_compute; reflexivity|reflexivity].
Defined.

(** X23. [approve] and [revoke]: an amount that cannot be encoded is
    refused before anything is sent, whatever the network would answer; and
    [revoke], whose amount is 0, fails only if the send fails. *)
Theorem approve_checks_before_sending (Signature : Type)
    (sendAndConfirmTransaction :
       string -> Connection.t -> Transaction.t -> list Account.t -> result Signature)
    (this : Token.t) (owner : Account.t) (account delegate : PublicKey.t) :
  (forall v,
      2 ^ 64 <= Z.abs v ->
      Token.approve Signature sendAndConfirmTransaction this owner account delegate
        (TokenAmount.OfAmount v)
      = Throw (AssertionError "TokenAmount too large"))
  /\ (forall n,
         2 ^ 53 <= Z.abs n ->
         Token.approve Signature sendAndConfirmTransaction this owner account delegate
           (TokenAmount.OfNumber n)
         = Throw (Error "Assertion failed"))
  /\ (forall e,
         Token.revoke Signature sendAndConfirmTransaction this owner account delegate
         = Throw e ->
         sendAndConfirmTransaction "approve" (Token.connection this)
           [zero_approval this (Account.publicKey owner) account delegate] [owner]
         = Throw e).
Proof.
  split; [|split].
  - intros v Hv. unfold Token.approve. rewrite approveInstruction_cases.
    cbn [encodable amount_error].
    destruct (Z.ltb_spec (Z.abs v) (2 ^ 64)); [lia|reflexivity].
  - intros n Hn. unfold Token.approve. rewrite approveInstruction_cases.
    cbn [encodable amount_error].
    destruct (Z.ltb_spec (Z.abs n) (2 ^ 53)); [lia|reflexivity].
  - intros e. unfold Token.revoke, Token.approve.
    rewrite approveInstruction_cases.
    change (encodable (TokenAmount.OfNumber 0)) with true.
    cbn [bind]. change (Transaction.add Transaction.new ?i) with [i].
    unfold zero_approval.
    match goal with
    | |- context [sendAndConfirmTransaction ?t ?c ?x ?l] =>
        destruct (sendAndConfirmTransaction t c x l) as [s|e'] eqn:Hs
    end; cbn [bind]; [discriminate|].
    intros [= <-]. exact Hs.
Qed.

(** X24. [setOwner] builds its instruction without any check of its own:
    it sends, under the title the source spells "setOwneer", one instruction
    with the payload [4] and the keys owner (signer), account and new owner
    (written), and its outcome is the outcome of that send. *)
Theorem setOwner_sends (Signature : Type)
    (sendAndConfirmTransaction :
       string -> Connection.t -> Transaction.t -> list Account.t -> result Signature)
    (this : Token.t) (owner : Account.t) (account newOwner : PublicKey.t) :
  Token.setOwner Signature sendAndConfirmTransaction this owner account newOwner
  = (_ <- sendAndConfirmTransaction "setOwneer" (Token.connection this)
            [ {| TransactionInstruction.keys :=
                   owner_and_two (Account.publicKey owner) account newOwner;
                 TransactionInstruction.programId := Token.programId this;
                 TransactionInstruction.data := [Byte.x04] |} ]
            [owner] ;;
     Ok tt).
Proof.
  unfold Token.setOwner. rewrite setOwnerInstruction_bytes. reflexivity.
Qed.

Lemma approve_checks_before_sending_witness :
  Token.approve string sample_send (sample_token key_x11 direct_data)
    sample_owner sample_account key_x33 (TokenAmount.OfAmount (2 ^ 64))
  = Throw (AssertionError "TokenAmount too large").
Proof.
  apply (proj1 (approve_checks_before_sending string sample_send
                  (sample_token key_x11 direct_data) sample_owner sample_account
                  key_x33)).
  cbn; lia.
Defined.

(** ** What the decoders read *)

(** X25. [accountInfo] reads the first 121 bytes of the account data and
    nothing after them: two accounts with the same owner whose data agree on
    the first 121 bytes get the same answer, record or error, from [Token]
    objects of the same token and program. *)
Theorem accountInfo_reads_121_bytes (this this' : Token.t) (account account' : PublicKey.t)
    (ai ai' : AccountInfo.t) (header trailing trailing' : list byte) :
  Connection.getAccountInfo (Token.connection this) account = Ok ai ->
  Connection.getAccountInfo (Token.connection this') account' = Ok ai' ->
  Token.token this = Token.token this' ->
  Token.programId this = Token.programId this' ->
  AccountInfo.owner ai = AccountInfo.owner ai' ->
  length header = 121%nat ->
  AccountInfo.data ai = header ++ trailing ->
  AccountInfo.data ai' = header ++ trailing' ->
  Token.accountInfo this account = Token.accountInfo this' account'.
Proof.
  intros Hget Hget' Htoken Hprog Howner Hlen Hdata Hdata'.
  rewrite !accountInfo_unfold, Hget, Hget'. cbn [bind].
  unfold accountInfo_checks, account_object, key_at.
  rewrite Hdata, Hdata', <- Htoken, <- Hprog, <- Howner.
  rewrite !nth_error_app1 by lia. rewrite !length_app, Hlen.
  rewrite !slice_prefix by lia.
  destruct (Nat.ltb_spec (121 + length trailing) 81); [lia|].
  destruct (Nat.ltb_spec (121 + length trailing') 81); [lia|].
  reflexivity.
Qed.

Lemma accountInfo_reads_121_bytes_witness :
  Token.accountInfo (sample_token key_x11 (delegate_data ++ [Byte.x01; Byte.x02]))
    sample_account
  = Token.accountInfo (sample_token key_x11 (delegate_data ++ [Byte.xff]))
      sample_account.
Proof.
  apply (accountInfo_reads_121_bytes
           (sample_token key_x11 (delegate_data ++ [Byte.x01; Byte.x02]))
           (sample_token key_x11 (delegate_data ++ [Byte.xff]))
           sample_account sample_account
           (sample_info (delegate_data ++ [Byte.x01; Byte.x02]))
           (sample_info (delegate_data ++ [Byte.xff]))
           delegate_data [Byte.x01; Byte.x02] [Byte.xff]);
    reflexivity.
Defined.

(** X26. Keys made of fields of the same length are equal exactly when the
    fields hold the same bytes: the comparison of the token cross-check and
    of the owner check of [transferInstruction] is a comparison of the 32
    bytes. *)
Theorem PublicKey_equals_bytes (a b : Buffer.t) (ka kb : PublicKey.t) :
  length a = length b ->
  PublicKey.new a = Ok ka -> PublicKey.new b = Ok kb ->
  (PublicKey.equals ka kb = true <-> a = b).
Proof.
  intros Hlen Ha Hb. unfold PublicKey.new in Ha, Hb.
  destruct (32 <? BN.byteLength (BN.of_bytes a))%nat; [discriminate|].
  destruct (32 <? BN.byteLength (BN.of_bytes b))%nat; [discriminate|].
  injection Ha as <-. injection Hb as <-.
  unfold PublicKey.equals, BN.eq. cbn [PublicKey._bn]. rewrite Z.eqb_eq.
  split; [|intros ->; reflexivity].
  rewrite <- (rev_involutive a), <- (rev_involutive b) at 1.
  rewrite !of_bytes_rev. intros H.
  apply le_combine_inj in H; [|rewrite !length_rev; exact Hlen].
  rewrite <- (rev_involutive a), <- (rev_involutive b), H. reflexivity.
Qed.

Lemma PublicKey_equals_bytes_witness :
  PublicKey.equals key_x11 key_x22 = true <-> repeat Byte.x11 32 = repeat Byte.x22 32.
Proof.
  apply (PublicKey_equals_bytes (repeat Byte.x11 32) (repeat Byte.x22 32) key_x11 key_x22);
    reflexivity.
Defined.
